(** * Financial data service: normalisation and analytics engine

    A shallow embedding of the service's endpoint logic
    ([app/api/endpoints/financials.py], [metrics.py], [company.py]) and of
    its upstream cache ([app/services/finnhub_services.py]), followed by the
    properties the specification states about them.

    Python [float] is IEEE binary64 and is modelled by Rocq's primitive
    floats; [Optional[T]] is [option T]; Python [int] is [Z]; [str] is
    [string]; a [dict] with string keys is a [gmap string _]. *)

From Stdlib Require Import ZArith Floats String List Bool Lia.
From Stdlib Require Import Sorting.Sorted Sorting.Permutation.
From stdpp Require Import base gmap strings.
Import ListNotations.

Local Open Scope string_scope.
Local Open Scope Z_scope.

(** ** Python builtins used by the service *)

Module Py.

(** [x == 0] and [x != 0] on a float: IEEE equality, so [-0.0 == 0] holds
    and [nan == 0] does not (hence [nan != 0] holds). *)
Definition eq0 (x : float) : bool := (x =? 0)%float.
Definition ne0 (x : float) : bool := negb (x =? 0)%float.

(** [math.isinf] and [math.isnan]. *)
Definition isinf (x : float) : bool := PrimFloat.is_infinity x.
Definition isnan (x : float) : bool := PrimFloat.is_nan x.

(** [a / b] rounded half-to-even to an integer, for [0 < b]. *)
Definition div_half_even (a b : Z) : Z :=
  let q := a / b in
  match Z.compare (2 * (a mod b)) b with
  | Lt => q
  | Gt => q + 1
  | Eq => if Z.even q then q else q + 1
  end.

(** [round(x, ndigits)] for [0 <= ndigits]: infinities and NaN round to
    themselves; a finite [x = ±m·2^e] is rounded, on its exact value and
    half-to-even, to the integer [k] nearest [|x|·10^ndigits], and the
    result is the double nearest [±k / 10^ndigits] (keeping the sign of
    [x] when [k = 0], as in [round(-0.001, 2) == -0.0]). *)
Definition round (x : float) (ndigits : Z) : float :=
  match Prim2SF x with
  | S754_finite s m e =>
      let scaled := Zpos m * 10 ^ ndigits in
      let k := match e with
               | Zneg p => div_half_even scaled (2 ^ Zpos p)
               | _ => scaled * 2 ^ e
               end in
      match k with
      | Zpos k' =>
          SF2Prim (SFdiv prec emax (S754_finite s k' 0)
                     (S754_finite false (Z.to_pos (10 ^ ndigits)) 0))
      | _ => if s then (-0)%float else 0%float
      end
  | _ => x
  end.

(** Truthiness of an [Optional[List[_]]]: [None] and [[]] are falsy. *)
Definition truthy_list {A} (l : option (list A)) : bool :=
  match l with
  | Some (_ :: _) => true
  | _ => false
  end.

(** Truthiness of an [Optional[str]]. *)
Definition truthy_str (s : option string) : bool :=
  match s with
  | Some (String _ _) => true
  | _ => false
  end.

(** Truthiness of an optional object without [__bool__] or [__len__]
    (a pydantic model instance): only [None] is falsy. *)
Definition truthy_obj {A} (o : option A) : bool :=
  match o with
  | Some _ => true
  | None => false
  end.

(** [sub in s] on strings. *)
Definition str_in (sub s : string) : bool :=
  match String.index 0 sub s with
  | Some _ => true
  | None => false
  end.

(** [sorted(l, key=key, reverse=reverse)] with string keys.  The sort is
    stable; with [reverse=True] the list is reversed, sorted ascending and
    reversed again, which keeps equal keys in their original order. *)
Section Sorted.
Context {A : Type} (key : A -> string).

Fixpoint insert_asc (x : A) (l : list A) : list A :=
  match l with
  | [] => [x]
  | y :: ys =>
      if String.leb (key x) (key y) then x :: y :: ys
      else y :: insert_asc x ys
  end.

Fixpoint sort_asc (l : list A) : list A :=
  match l with
  | [] => []
  | x :: xs => insert_asc x (sort_asc xs)
  end.

Definition sorted (reverse : bool) (l : list A) : list A :=
  if reverse then rev (sort_asc (rev l)) else sort_asc l.

(** The order [sorted] arranges its output in: keys compared as strings. *)
Definition key_le (a b : A) : Prop := String.leb (key a) (key b) = true.
End Sorted.

End Py.

(** ** Upstream schemas ([app/schemas/finnhub_schemas.py]) *)

Module ReportItem.
Record t := mk {
  concept : string;
  unit : string;
  label : string;
  value : option float
}.
End ReportItem.

Module FinancialReportDetails.
Record t := mk {
  bs : option (list ReportItem.t);
  ic : option (list ReportItem.t);
  cf : option (list ReportItem.t)
}.
End FinancialReportDetails.

(** [endDate] and [report] are declared required; the endpoint nevertheless
    guards against their absence, so both are optional here. *)
Module FinancialFilingData.
Record t := mk {
  accessNumber : string;
  symbol : string;
  cik : string;
  year : Z;
  quarter : Z;
  form : string;
  startDate : string;
  endDate : option string;
  filedDate : string;
  acceptedDate : string;
  report : option FinancialReportDetails.t
}.
End FinancialFilingData.

Module FinnhubFinancialsReport.
Record t := mk {
  cik : string;
  data : list FinancialFilingData.t;
  symbol : string
}.
End FinnhubFinancialsReport.

(** ** Output schemas ([app/schemas/app_schemas.py]) *)

Module FinancialItemOut.
Record t := mk {
  label : string;
  value : option float;
  unit : option string
}.
End FinancialItemOut.

Module IncomeStatementOut.
Record t := mk {
  revenue : option FinancialItemOut.t;
  cost_of_revenue : option FinancialItemOut.t;
  gross_profit : option FinancialItemOut.t;
  operating_expenses : option FinancialItemOut.t;
  operating_income : option FinancialItemOut.t;
  net_income : option FinancialItemOut.t;
  eps_basic : option FinancialItemOut.t
}.
Definition empty : t := mk None None None None None None None.
Definition model_dump_values (s : t) : list (option FinancialItemOut.t) :=
  [revenue s; cost_of_revenue s; gross_profit s; operating_expenses s;
   operating_income s; net_income s; eps_basic s].
End IncomeStatementOut.

Module BalanceSheetOut.
Record t := mk {
  cash_and_cash_equivalents : option FinancialItemOut.t;
  marketable_securities : option FinancialItemOut.t;
  accounts_receivable : option FinancialItemOut.t;
  total_current_assets : option FinancialItemOut.t;
  property_plant_equipment : option FinancialItemOut.t;
  goodwill : option FinancialItemOut.t;
  total_assets : option FinancialItemOut.t;
  accounts_payable : option FinancialItemOut.t;
  deferred_revenue : option FinancialItemOut.t;
  total_current_liabilities : option FinancialItemOut.t;
  long_term_debt : option FinancialItemOut.t;
  total_liabilities : option FinancialItemOut.t;
  total_equity : option FinancialItemOut.t
}.
Definition empty : t :=
  mk None None None None None None None None None None None None None.
Definition model_dump_values (s : t) : list (option FinancialItemOut.t) :=
  [cash_and_cash_equivalents s; marketable_securities s;
   accounts_receivable s; total_current_assets s;
   property_plant_equipment s; goodwill s; total_assets s;
   accounts_payable s; deferred_revenue s; total_current_liabilities s;
   long_term_debt s; total_liabilities s; total_equity s].
End BalanceSheetOut.

Module CashFlowStatementOut.
Record t := mk {
  net_income : option FinancialItemOut.t;
  depreciation_amortization : option FinancialItemOut.t;
  changes_in_working_capital : option FinancialItemOut.t;
  cash_from_operating_activities : option FinancialItemOut.t;
  capital_expenditures : option FinancialItemOut.t;
  cash_from_investing_activities : option FinancialItemOut.t;
  dividends_paid : option FinancialItemOut.t;
  cash_from_financing_activities : option FinancialItemOut.t;
  net_increase_decrease_in_cash : option FinancialItemOut.t
}.
Definition empty : t := mk None None None None None None None None None.
Definition model_dump_values (s : t) : list (option FinancialItemOut.t) :=
  [net_income s; depreciation_amortization s; changes_in_working_capital s;
   cash_from_operating_activities s; capital_expenditures s;
   cash_from_investing_activities s; dividends_paid s;
   cash_from_financing_activities s; net_increase_decrease_in_cash s].
End CashFlowStatementOut.

Module CalculatedRatiosOut.
Record t := mk {
  gross_margin : option float;
  operating_margin : option float;
  net_profit_margin : option float;
  current_ratio : option float;
  debt_to_equity_ratio : option float
}.
Definition empty : t := mk None None None None None.
Definition model_dump_values (r : t) : list (option float) :=
  [gross_margin r; operating_margin r; net_profit_margin r;
   current_ratio r; debt_to_equity_ratio r].
End CalculatedRatiosOut.

Module FinancialFilingOut.
Record t := mk {
  symbol : string;
  access_number : string;
  form_type : string;
  year : Z;
  quarter : Z;
  start_date : option string;
  end_date : option string;
  filed_date : option string;
  accepted_date : option string;
  income_statement : option IncomeStatementOut.t;
  balance_sheet : option BalanceSheetOut.t;
  cash_flow_statement : option CashFlowStatementOut.t;
  calculated_ratios : option CalculatedRatiosOut.t;
  revenue_growth_yoy_percent : option float;
  net_income_growth_yoy_percent : option float;
  financial_health_status : option string
}.
End FinancialFilingOut.

Module FinancialReportsOut.
Record t := mk {
  symbol : string;
  filings : list FinancialFilingOut.t
}.
End FinancialReportsOut.

(** ** Exceptions and results *)

Inductive Exn :=
| HTTPException (status_code : Z) (detail : string)
| AttributeError (obj attr : string)
| ValidationError
| HTTPStatusError (status_code : Z) (text : string)
| RequestError.

Inductive Result (A : Type) :=
| Ok (a : A)
| Raise (e : Exn).
Arguments Ok {A} a.
Arguments Raise {A} e.

(** ** Financial statements ([app/api/endpoints/financials.py]) *)

Module Financials.

(** The [for item in report_items] loop of [find_concept_value]. *)
Fixpoint find_concept_loop (items : list ReportItem.t) (concept : string)
  : option FinancialItemOut.t :=
  match items with
  | [] => None
  | item :: rest =>
      if String.eqb (ReportItem.concept item) concept then
        (* [isinstance(item.value, (int, float))]: a float is kept, [None]
           stays [None] *)
        let val := match ReportItem.value item with
                   | Some v => Some v
                   | None => None
                   end in
        Some (FinancialItemOut.mk (ReportItem.label item) val
                (Some (ReportItem.unit item)))
      else find_concept_loop rest concept
  end.

Definition find_concept_value (report_items : option (list ReportItem.t))
    (concept : string) : option FinancialItemOut.t :=
  match report_items with
  | Some items =>
      if Py.truthy_list report_items then find_concept_loop items concept
      else None
  | None => None
  end.

Definition _calculate_growth_rate (current_value previous_value : option float)
  : option float :=
  match current_value, previous_value with
  | Some current_value, Some previous_value =>
      if Py.eq0 previous_value then
        Some (if (0 <? current_value)%float then infinity
              else if (current_value <? 0)%float then neg_infinity
              else 0%float)
      else
        let growth :=
          ((current_value - previous_value) / previous_value * 100)%float in
        Some (Py.round growth 2)
  | _, _ => None
  end.

(** [x is None] and [x is not None]. *)
Definition is_None {A} (x : option A) : bool :=
  match x with None => true | Some _ => false end.

Definition is_not_None {A} (x : option A) : bool := negb (is_None x).

(** The label chosen from the final score. *)
Definition health_label (score : Z) : string :=
  if 2 <=? score then "Strong"
  else if 0 <=? score then "Stable"
  else "Concerning".

(** [score] and [num_factors_considered] are threaded through the four
    [if] blocks as a pair. *)
Definition _assess_financial_health
    (net_income cash_from_operating_activities
     current_ratio debt_to_equity_ratio : option float) : option string :=
  if forallb is_None [net_income; cash_from_operating_activities;
                      current_ratio; debt_to_equity_ratio]
  then None
  else
    let score := 0 in
    let num_factors_considered := 0 in
    let '(score, num_factors_considered) :=
      match net_income with
      | Some net_income =>
          (if (0 <? net_income)%float then score + 1 else score,
           num_factors_considered + 1)
      | None => (score, num_factors_considered)
      end in
    let '(score, num_factors_considered) :=
      match cash_from_operating_activities with
      | Some cash =>
          (if (0 <? cash)%float then score + 1 else score,
           num_factors_considered + 1)
      | None => (score, num_factors_considered)
      end in
    let '(score, num_factors_considered) :=
      match current_ratio with
      | Some cr =>
          if negb (Py.isinf cr) && negb (Py.isnan cr) then
            (if (1.5 <=? cr)%float then score + 1
             else if (cr <? 1)%float then score - 1
             else score,
             num_factors_considered + 1)
          else (score, num_factors_considered)
      | None => (score, num_factors_considered)
      end in
    let '(score, num_factors_considered) :=
      match debt_to_equity_ratio with
      | Some de =>
          if negb (Py.isinf de) && negb (Py.isnan de) then
            (if (de <=? 1)%float then score + 1
             else if (2 <? de)%float then score - 1
             else score,
             num_factors_considered + 1)
          else (score, num_factors_considered)
      | None => (score, num_factors_considered)
      end in
    if num_factors_considered =? 0 then None
    else Some (health_label score).

(** [annual_filings]: the list comprehension and the [sorted] call. *)
Definition is_annual_10K (f : FinancialFilingData.t) : bool :=
  (FinancialFilingData.quarter f =? 0)
  && String.eqb (FinancialFilingData.form f) "10-K"
  && Py.truthy_obj (FinancialFilingData.report f).

(** [lambda x: x.endDate if x.endDate else ""]. *)
Definition endDate_key (x : FinancialFilingData.t) : string :=
  if Py.truthy_str (FinancialFilingData.endDate x)
  then match FinancialFilingData.endDate x with Some d => d | None => "" end
  else "".

Definition annual_filings (data : list FinancialFilingData.t)
  : list FinancialFilingData.t :=
  Py.sorted endDate_key true (List.filter is_annual_10K data).

(** [x.value if x else None] for an optional resolved item. *)
Definition value_of (x : option FinancialItemOut.t) : option float :=
  match x with
  | Some item => FinancialItemOut.value item
  | None => None
  end.

(** The temporaries holding the current filing's extracted values. *)
Record Current := mkCurrent {
  current_revenue : option float;
  current_net_income_ic : option float;
  current_gross_profit : option float;
  current_operating_income : option float;
  current_total_current_assets : option float;
  current_total_current_liabilities : option float;
  current_total_liabilities : option float;
  current_total_equity : option float;
  current_cash_from_ops : option float
}.

(** Revenue: the preferred tag first, the legacy tag when it is absent. *)
Definition resolve_revenue (ic : option (list ReportItem.t))
  : option FinancialItemOut.t :=
  let inc_revenue := find_concept_value ic "us-gaap_Revenues" in
  if negb (Py.truthy_obj inc_revenue)
  then find_concept_value ic "us-gaap_SalesRevenueNet"
  else inc_revenue.

(** [if filing.report.ic:] block. *)
Definition populate_income (ic : option (list ReportItem.t))
  : IncomeStatementOut.t :=
  if Py.truthy_list ic then
    let inc_revenue := resolve_revenue ic in
    let inc_cost_of_revenue := find_concept_value ic "us-gaap_CostOfRevenue" in
    let inc_gross_profit := find_concept_value ic "us-gaap_GrossProfit" in
    let inc_operating_income :=
      find_concept_value ic "us-gaap_OperatingIncomeLoss" in
    let inc_net_income := find_concept_value ic "us-gaap_NetIncomeLoss" in
    IncomeStatementOut.mk inc_revenue inc_cost_of_revenue inc_gross_profit
      None inc_operating_income inc_net_income
      (find_concept_value ic "us-gaap_EarningsPerShareBasic")
  else IncomeStatementOut.empty.

(** [if filing.report.bs:] block. *)
Definition populate_balance (bs : option (list ReportItem.t))
  : BalanceSheetOut.t :=
  if Py.truthy_list bs then
    BalanceSheetOut.mk
      (find_concept_value bs "us-gaap_CashAndCashEquivalentsAtCarryingValue")
      (find_concept_value bs "us-gaap_MarketableSecuritiesCurrent")
      (find_concept_value bs "us-gaap_AccountsReceivableNetCurrent")
      (find_concept_value bs "us-gaap_AssetsCurrent")
      (find_concept_value bs "us-gaap_PropertyPlantAndEquipmentNet")
      None
      (find_concept_value bs "us-gaap_Assets")
      (find_concept_value bs "us-gaap_AccountsPayableCurrent")
      (find_concept_value bs "us-gaap_DeferredRevenueCurrent")
      (find_concept_value bs "us-gaap_LiabilitiesCurrent")
      (find_concept_value bs "us-gaap_LongTermDebt")
      (find_concept_value bs "us-gaap_Liabilities")
      (find_concept_value bs "us-gaap_StockholdersEquity")
  else BalanceSheetOut.empty.

(** [if filing.report.cf:] block. *)
Definition populate_cash_flow (cf : option (list ReportItem.t))
  : CashFlowStatementOut.t :=
  if Py.truthy_list cf then
    CashFlowStatementOut.mk
      (find_concept_value cf "us-gaap_NetIncomeLoss")
      (find_concept_value cf "us-gaap_DepreciationDepletionAndAmortization")
      None
      (find_concept_value cf
         "us-gaap_NetCashProvidedByUsedInOperatingActivities")
      (find_concept_value cf "us-gaap_PaymentsToAcquireProductiveAssets")
      (find_concept_value cf
         "us-gaap_NetCashProvidedByUsedInInvestingActivities")
      (find_concept_value cf "us-gaap_PaymentsOfDividends")
      (find_concept_value cf
         "us-gaap_NetCashProvidedByUsedInFinancingActivities")
      (find_concept_value cf
         "us-gaap_CashAndCashEquivalentsPeriodIncreaseDecrease")
  else CashFlowStatementOut.empty.

(** The temporaries after the three blocks; each stays [None] when its
    block is skipped, because the skipped statement is empty. *)
Definition extract_current (income_statement : IncomeStatementOut.t)
    (balance_sheet : BalanceSheetOut.t)
    (cash_flow_statement : CashFlowStatementOut.t) : Current :=
  {| current_revenue :=
       value_of (IncomeStatementOut.revenue income_statement);
     current_net_income_ic :=
       value_of (IncomeStatementOut.net_income income_statement);
     current_gross_profit :=
       value_of (IncomeStatementOut.gross_profit income_statement);
     current_operating_income :=
       value_of (IncomeStatementOut.operating_income income_statement);
     current_total_current_assets :=
       value_of (BalanceSheetOut.total_current_assets balance_sheet);
     current_total_current_liabilities :=
       value_of (BalanceSheetOut.total_current_liabilities balance_sheet);
     current_total_liabilities :=
       value_of (BalanceSheetOut.total_liabilities balance_sheet);
     current_total_equity :=
       value_of (BalanceSheetOut.total_equity balance_sheet);
     current_cash_from_ops :=
       value_of (CashFlowStatementOut.cash_from_operating_activities
                   cash_flow_statement) |}.

(** "Calculate Ratios": each field of [CalculatedRatiosOut()] starts as
    [None] and is assigned only in the branches below. *)
Definition calculate_ratios (c : Current) : CalculatedRatiosOut.t :=
  let gross_margin :=
    match current_gross_profit c, current_revenue c with
    | Some gross_profit, Some revenue =>
        if Py.ne0 revenue
        then Some (Py.round (gross_profit / revenue)%float 4)
        else None
    | _, _ => None
    end in
  let operating_margin :=
    match current_operating_income c, current_revenue c with
    | Some operating_income, Some revenue =>
        if Py.ne0 revenue
        then Some (Py.round (operating_income / revenue)%float 4)
        else None
    | _, _ => None
    end in
  let net_profit_margin :=
    match current_net_income_ic c, current_revenue c with
    | Some net_income, Some revenue =>
        if Py.ne0 revenue
        then Some (Py.round (net_income / revenue)%float 4)
        else None
    | _, _ => None
    end in
  let current_ratio :=
    match current_total_current_assets c,
          current_total_current_liabilities c with
    | Some assets, Some liabilities =>
        if Py.ne0 liabilities
        then Some (Py.round (assets / liabilities)%float 2)
        else (* elif: zero liabilities *)
          if Py.eq0 liabilities then Some infinity else None
    | _, _ => None
    end in
  let debt_to_equity_ratio :=
    match current_total_liabilities c, current_total_equity c with
    | Some liabilities, Some equity =>
        if Py.ne0 equity
        then Some (Py.round (liabilities / equity)%float 2)
        else (* elif: zero equity *)
          if Py.eq0 equity then Some infinity else None
    | _, _ => None
    end in
  CalculatedRatiosOut.mk gross_margin operating_margin net_profit_margin
    current_ratio debt_to_equity_ratio.

(** A ratio counts as a valid value when it is not [None], infinite or
    NaN. *)
Definition valid_ratio (v : option float) : bool :=
  match v with
  | Some x => negb (Py.isinf x || Py.isnan x)
  | None => false
  end.

(** [previous_year_values]: a [defaultdict(lambda: None)]. *)
Definition get_previous (d : gmap string (option float)) (k : string)
  : option float :=
  default None (d !! k).

(** The temporaries of one filing, from its report. *)
Definition current_of_report (r : FinancialReportDetails.t) : Current :=
  extract_current (populate_income (FinancialReportDetails.ic r))
    (populate_balance (FinancialReportDetails.bs r))
    (populate_cash_flow (FinancialReportDetails.cf r)).

(** One iteration of [for i, filing in enumerate(annual_filings)]: the
    output filing and the updated [previous_year_values]. *)
Definition loop_body (filing : FinancialFilingData.t)
    (previous_year_values : gmap string (option float))
  : Result (FinancialFilingOut.t * gmap string (option float)) :=
  match FinancialFilingData.report filing with
  | None => Raise (AttributeError "NoneType" "ic")
  | Some report =>
      let income_statement :=
        populate_income (FinancialReportDetails.ic report) in
      let balance_sheet :=
        populate_balance (FinancialReportDetails.bs report) in
      let cash_flow_statement :=
        populate_cash_flow (FinancialReportDetails.cf report) in
      let c :=
        extract_current income_statement balance_sheet cash_flow_statement in
      let calculated_ratios := calculate_ratios c in
      let revenue_growth_yoy :=
        _calculate_growth_rate (current_revenue c)
          (get_previous previous_year_values "revenue") in
      let net_income_growth_yoy :=
        _calculate_growth_rate (current_net_income_ic c)
          (get_previous previous_year_values "net_income_ic") in
      let health_status :=
        _assess_financial_health (current_net_income_ic c)
          (current_cash_from_ops c)
          (CalculatedRatiosOut.current_ratio calculated_ratios)
          (CalculatedRatiosOut.debt_to_equity_ratio calculated_ratios) in
      let filing_out :=
        {| FinancialFilingOut.symbol := FinancialFilingData.symbol filing;
           FinancialFilingOut.access_number :=
             FinancialFilingData.accessNumber filing;
           FinancialFilingOut.form_type := FinancialFilingData.form filing;
           FinancialFilingOut.year := FinancialFilingData.year filing;
           FinancialFilingOut.quarter := FinancialFilingData.quarter filing;
           FinancialFilingOut.start_date :=
             Some (FinancialFilingData.startDate filing);
           FinancialFilingOut.end_date := FinancialFilingData.endDate filing;
           FinancialFilingOut.filed_date :=
             Some (FinancialFilingData.filedDate filing);
           FinancialFilingOut.accepted_date :=
             Some (FinancialFilingData.acceptedDate filing);
           FinancialFilingOut.income_statement :=
             if existsb is_not_None
                  (IncomeStatementOut.model_dump_values income_statement)
             then Some income_statement else None;
           FinancialFilingOut.balance_sheet :=
             if existsb is_not_None
                  (BalanceSheetOut.model_dump_values balance_sheet)
             then Some balance_sheet else None;
           FinancialFilingOut.cash_flow_statement :=
             if existsb is_not_None
                  (CashFlowStatementOut.model_dump_values cash_flow_statement)
             then Some cash_flow_statement else None;
           FinancialFilingOut.calculated_ratios :=
             if existsb valid_ratio
                  (CalculatedRatiosOut.model_dump_values calculated_ratios)
             then Some calculated_ratios else None;
           FinancialFilingOut.revenue_growth_yoy_percent :=
             revenue_growth_yoy;
           FinancialFilingOut.net_income_growth_yoy_percent :=
             net_income_growth_yoy;
           FinancialFilingOut.financial_health_status := health_status |} in
      let previous_year_values :=
        <["revenue" := current_revenue c]> previous_year_values in
      let previous_year_values :=
        <["net_income_ic" := current_net_income_ic c]>
          previous_year_values in
      Ok (filing_out, previous_year_values)
  end.

(** The [for] loop: [filings_out] grows by [append], and
    [previous_year_values] is carried from one iteration to the next. *)
Fixpoint filings_loop (annual_filings : list FinancialFilingData.t)
    (filings_out : list FinancialFilingOut.t)
    (previous_year_values : gmap string (option float))
  : Result (list FinancialFilingOut.t) :=
  match annual_filings with
  | [] => Ok filings_out
  | filing :: rest =>
      match loop_body filing previous_year_values with
      | Ok (filing_out, previous_year_values') =>
          filings_loop rest (filings_out ++ [filing_out])
            previous_year_values'
      | Raise e => Raise e
      end
  end.

(** The handler once [get_financials_reported] has returned. *)
Definition summarise (symbol : string)
    (finnhub_data : option FinnhubFinancialsReport.t)
  : Result FinancialReportsOut.t :=
  match finnhub_data with
  | None =>
      Raise (HTTPException 404
               ("No annual financial reports found for " ++ symbol ++
                ". It might be an invalid symbol or data is not available."))
  | Some d =>
      if negb (Py.truthy_list (Some (FinnhubFinancialsReport.data d))) then
        Raise (HTTPException 404
                 ("No annual financial reports found for " ++ symbol ++
                  ". It might be an invalid symbol or data is not available."))
      else
        let annual := annual_filings (FinnhubFinancialsReport.data d) in
        if negb (Py.truthy_list (Some annual)) then
          Raise (HTTPException 404
                   ("No 10-K annual reports found for " ++ symbol ++
                    " after filtering."))
        else
          match filings_loop annual [] ∅ with
          | Ok filings_out => Ok (FinancialReportsOut.mk symbol filings_out)
          | Raise e => Raise e
          end
  end.

End Financials.

(** [Result] is the error monad in which handlers and model construction
    run. *)
#[export] Instance Result_ret : MRet Result := fun _ a => Ok a.
#[export] Instance Result_bind : MBind Result := fun _ _ f r =>
  match r with
  | Ok a => f a
  | Raise e => Raise e
  end.

(** ** Key metrics ([app/api/endpoints/metrics.py]) *)

(** Values that reach a pydantic constructor as keyword arguments: [None],
    a number (by its value as a float), a string.  [VInvalid] stands for
    any value that no field type used here accepts. *)
Inductive PyVal :=
| VNone
| VFloat (x : float)
| VStr (s : string)
| VInvalid.

Module Pydantic.

Definition of_float (x : option float) : PyVal :=
  match x with Some v => VFloat v | None => VNone end.

Definition of_str (s : option string) : PyVal :=
  match s with Some v => VStr v | None => VNone end.

(** The keyword argument a field is populated from: its alias when it has
    one (the field name is then not accepted), else its name; an absent
    argument leaves the field at its default, [None]. *)
Fixpoint kwarg (kwargs : list (string * PyVal)) (key : string) : PyVal :=
  match kwargs with
  | [] => VNone
  | (k, v) :: rest => if String.eqb k key then v else kwarg rest key
  end.

(** Validation of a field declared [Optional[float]].  Models validate in
    lax mode: [None] and a number pass, and so does a string that reads as
    a number, which is stored as that number.  [float_of_str] is pydantic's
    reading of a string as a float: the number, or nothing when the string
    is not numeric. *)
Definition optional_float (float_of_str : string -> option float)
    (v : PyVal) : Result (option float) :=
  match v with
  | VNone => Ok None
  | VFloat x => Ok (Some x)
  | VStr s =>
      match float_of_str s with
      | Some x => Ok (Some x)
      | None => Raise ValidationError
      end
  | VInvalid => Raise ValidationError
  end.

(** Validation of a field declared [Optional[str]]. *)
Definition optional_str (v : PyVal) : Result (option string) :=
  match v with
  | VNone => Ok None
  | VStr s => Ok (Some s)
  | _ => Raise ValidationError
  end.

(** Validation of a required field declared [str]. *)
Definition required_str (v : PyVal) : Result string :=
  match v with
  | VStr s => Ok s
  | _ => Raise ValidationError
  end.

End Pydantic.

Module FinnhubMetricData.
(** The declared fields, and the undeclared ones kept by
    [extra = "allow"]. *)
Record t := mk {
  peTTM : option float;
  psTTM : option float;
  pb : option float;
  epsTTM : option float;
  roeTTM : option float;
  roaTTM : option float;
  netProfitMarginTTM : option float;
  grossMarginTTM : option float;
  operatingMarginTTM : option float;
  currentRatioAnnual : option float;
  quickRatioAnnual : option float;
  totalDebt_totalEquityAnnual : option float;
  revenueGrowthTTMYoy : option float;
  epsGrowthTTMYoy : option float;
  dividendPerShareTTM : option float;
  currentDividendYieldTTM : option float;
  beta : option float;
  marketCapitalization : option float;
  fifty_two_week_high : option float;
  fifty_two_week_low : option float;
  cashFlowPerShareTTM : option float;
  extra : list (string * PyVal)
}.

(** Attribute access on an undeclared name: the extra field when the
    payload had it, [AttributeError] otherwise. *)
Fixpoint getattr_extra (extras : list (string * PyVal)) (name : string)
  : Result PyVal :=
  match extras with
  | [] => Raise (AttributeError "FinnhubMetricData" name)
  | (k, v) :: rest =>
      if String.eqb k name then Ok v else getattr_extra rest name
  end.
End FinnhubMetricData.

Module FinnhubBasicFinancials.
Record t := mk {
  metric : option FinnhubMetricData.t;
  metricType : string;
  symbol : option string
}.
End FinnhubBasicFinancials.

Module KeyMetricsOut.
Record t := mk {
  symbol : string;
  pe_ratio_ttm : option float;
  ps_ratio_ttm : option float;
  pb_ratio : option float;
  market_capitalization : option float;
  eps_ttm : option float;
  roe_ttm : option float;
  roa_ttm : option float;
  net_profit_margin_ttm : option float;
  gross_margin_ttm : option float;
  operating_margin_ttm : option float;
  current_ratio_annual : option float;
  quick_ratio_annual : option float;
  total_debt_to_equity_annual : option float;
  revenue_growth_ttm_yoy : option float;
  eps_growth_ttm_yoy : option float;
  dividend_per_share_ttm : option float;
  current_dividend_yield_ttm : option float;
  beta : option float;
  fifty_two_week_high : option float;
  fifty_two_week_low : option float;
  cash_flow_per_share_ttm : option float;
  valuation_status : option string;
  profitability_assessment : option string;
  liquidity_assessment : option string
}.

(** Construction of a [KeyMetricsOut] from keyword arguments: every
    declared field is read from the keyword argument of its own name (the
    two price fields from their aliases) and validated; arguments that
    name no field are ignored. *)
Definition init (float_of_str : string -> option float)
    (kwargs : list (string * PyVal)) : Result t :=
  let f := fun key =>
    Pydantic.optional_float float_of_str (Pydantic.kwarg kwargs key) in
  let s := fun key => Pydantic.optional_str (Pydantic.kwarg kwargs key) in
  symbol ← Pydantic.required_str (Pydantic.kwarg kwargs "symbol");
  pe_ratio_ttm ← f "pe_ratio_ttm";
  ps_ratio_ttm ← f "ps_ratio_ttm";
  pb_ratio ← f "pb_ratio";
  market_capitalization ← f "market_capitalization";
  eps_ttm ← f "eps_ttm";
  roe_ttm ← f "roe_ttm";
  roa_ttm ← f "roa_ttm";
  net_profit_margin_ttm ← f "net_profit_margin_ttm";
  gross_margin_ttm ← f "gross_margin_ttm";
  operating_margin_ttm ← f "operating_margin_ttm";
  current_ratio_annual ← f "current_ratio_annual";
  quick_ratio_annual ← f "quick_ratio_annual";
  total_debt_to_equity_annual ← f "total_debt_to_equity_annual";
  revenue_growth_ttm_yoy ← f "revenue_growth_ttm_yoy";
  eps_growth_ttm_yoy ← f "eps_growth_ttm_yoy";
  dividend_per_share_ttm ← f "dividend_per_share_ttm";
  current_dividend_yield_ttm ← f "current_dividend_yield_ttm";
  beta ← f "beta";
  fifty_two_week_high ← f "52_week_high";
  fifty_two_week_low ← f "52_week_low";
  cash_flow_per_share_ttm ← f "cash_flow_per_share_ttm";
  valuation_status ← s "valuation_status";
  profitability_assessment ← s "profitability_assessment";
  liquidity_assessment ← s "liquidity_assessment";
  mret (mk symbol pe_ratio_ttm ps_ratio_ttm pb_ratio market_capitalization
          eps_ttm roe_ttm roa_ttm net_profit_margin_ttm gross_margin_ttm
          operating_margin_ttm current_ratio_annual quick_ratio_annual
          total_debt_to_equity_annual revenue_growth_ttm_yoy
          eps_growth_ttm_yoy dividend_per_share_ttm
          current_dividend_yield_ttm beta fifty_two_week_high
          fifty_two_week_low cash_flow_per_share_ttm valuation_status
          profitability_assessment liquidity_assessment).
End KeyMetricsOut.

Module Metrics.

Definition _assess_valuation (pe_ratio : option float) : option string :=
  match pe_ratio with
  | None => None
  | Some pe_ratio =>
      if (pe_ratio <? 15)%float then Some "Potentially Undervalued"
      else if (15 <=? pe_ratio)%float && (pe_ratio <=? 25)%float
      then Some "Fairly Valued"
      else if (25 <? pe_ratio)%float then Some "Potentially Overvalued"
      else None
  end.

Definition _assess_profitability (net_profit_margin : option float)
  : option string :=
  match net_profit_margin with
  | None => None
  | Some m =>
      if (0x1.999999999999ap-3 <=? m)%float (* 0.20 *)
      then Some "High Profitability"
      else if (0x1.999999999999ap-4 <=? m)%float (* 0.10 *)
              && (m <? 0x1.999999999999ap-3)%float
      then Some "Moderate Profitability"
      else if (m <? 0x1.999999999999ap-4)%float && (0 <=? m)%float
      then Some "Low Profitability"
      else if (m <? 0)%float then Some "Unprofitable"
      else None
  end.

Definition _assess_liquidity (current_ratio : option float)
  : option string :=
  match current_ratio with
  | None => None
  | Some r =>
      if (2 <=? r)%float then Some "Strong Liquidity"
      else if (1 <=? r)%float && (r <? 2)%float
      then Some "Adequate Liquidity"
      else if (r <? 1)%float then Some "Weak Liquidity"
      else None
  end.

(** [x * 100 if x is not None else None]. *)
Definition to_percent (x : option float) : option float :=
  match x with
  | Some v => Some (v * 100)%float
  | None => None
  end.

(** The handler once [get_basic_financials] has returned. *)
Definition key_metrics (float_of_str : string -> option float)
    (symbol : string) (finnhub_data : option FinnhubBasicFinancials.t)
  : Result KeyMetricsOut.t :=
  let not_found :=
    HTTPException 404
      ("No key metrics found for " ++ symbol ++
       ". It might be an invalid symbol or data is not available.") in
  match finnhub_data with
  | None => Raise not_found
  | Some d =>
      match FinnhubBasicFinancials.metric d with
      | None => Raise not_found
      | Some metrics =>
          quickRatioQuarterly ←
            FinnhubMetricData.getattr_extra
              (FinnhubMetricData.extra metrics) "quickRatioQuarterly";
          KeyMetricsOut.init float_of_str
            [ ("symbol", Pydantic.of_str (FinnhubBasicFinancials.symbol d));
              ("pe_ratio_ttm",
                Pydantic.of_float (FinnhubMetricData.peTTM metrics));
              ("ps_ratio_ttm",
                Pydantic.of_float (FinnhubMetricData.psTTM metrics));
              ("pb_ratio", Pydantic.of_float (FinnhubMetricData.pb metrics));
              ("market_capitalization",
                Pydantic.of_float
                  (FinnhubMetricData.marketCapitalization metrics));
              ("eps_ttm",
                Pydantic.of_float (FinnhubMetricData.epsTTM metrics));
              ("roe_ttm",
                Pydantic.of_float (FinnhubMetricData.roeTTM metrics));
              ("roa_ttm",
                Pydantic.of_float (FinnhubMetricData.roaTTM metrics));
              ("net_profit_margin_ttm",
                Pydantic.of_float
                  (FinnhubMetricData.netProfitMarginTTM metrics));
              ("gross_margin_ttm",
                Pydantic.of_float (FinnhubMetricData.grossMarginTTM metrics));
              ("operating_margin_ttm",
                Pydantic.of_float
                  (FinnhubMetricData.operatingMarginTTM metrics));
              ("current_ratio_annual",
                Pydantic.of_float
                  (FinnhubMetricData.currentRatioAnnual metrics));
              ("quick_ratio_annual", quickRatioQuarterly);
              ("total_debt_to_equity_annual",
                Pydantic.of_float
                  (FinnhubMetricData.totalDebt_totalEquityAnnual metrics));
              ("revenue_growth_ttm_yoy_percent",
                Pydantic.of_float
                  (to_percent (FinnhubMetricData.revenueGrowthTTMYoy metrics)));
              ("eps_growth_ttm_yoy_percent",
                Pydantic.of_float
                  (to_percent (FinnhubMetricData.epsGrowthTTMYoy metrics)));
              ("dividend_per_share_ttm",
                Pydantic.of_float
                  (FinnhubMetricData.dividendPerShareTTM metrics));
              ("current_dividend_yield_ttm",
                Pydantic.of_float
                  (FinnhubMetricData.currentDividendYieldTTM metrics));
              ("beta", Pydantic.of_float (FinnhubMetricData.beta metrics));
              ("fifty_two_week_high",
                Pydantic.of_float
                  (FinnhubMetricData.fifty_two_week_high metrics));
              ("fifty_two_week_low",
                Pydantic.of_float
                  (FinnhubMetricData.fifty_two_week_low metrics));
              ("cash_flow_per_share_ttm",
                Pydantic.of_float
                  (FinnhubMetricData.cashFlowPerShareTTM metrics));
              ("valuation_status",
                Pydantic.of_str
                  (_assess_valuation (FinnhubMetricData.peTTM metrics)));
              ("profitability_assessment",
                Pydantic.of_str
                  (_assess_profitability
                     (FinnhubMetricData.netProfitMarginTTM metrics)));
              ("liquidity_assessment",
                Pydantic.of_str
                  (_assess_liquidity
                     (FinnhubMetricData.currentRatioAnnual metrics))) ]
      end
  end.

End Metrics.

(** ** Company profile ([app/api/endpoints/company.py]) *)

Module FinnhubCompanyProfile2.
Record t := mk {
  country : string;
  currency : string;
  exchange : string;
  ipo : string;
  marketCapitalization : float;
  name : string;
  phone : option string;
  shareOutstanding : float;
  ticker : string;
  weburl : option string;
  logo : option string;
  finnhubIndustry : option string
}.
End FinnhubCompanyProfile2.

Module CompanyProfileOut.
Record t := mk {
  symbol : string;
  name : string;
  exchange : string;
  industry : option string;
  website : option string;
  market_capitalization : float;
  shares_outstanding : float;
  country : option string;
  currency : option string;
  ipo_date : option string;
  logo_url : option string
}.
End CompanyProfileOut.

Module Company.

(** The handler once [get_company_profile] has returned: the first
    keyword argument evaluated is [finnhub_data.ticker]. *)
Definition profile_out (finnhub_data : option FinnhubCompanyProfile2.t)
  : Result CompanyProfileOut.t :=
  match finnhub_data with
  | None => Raise (AttributeError "NoneType" "ticker")
  | Some p =>
      Ok {| CompanyProfileOut.symbol := FinnhubCompanyProfile2.ticker p;
            CompanyProfileOut.name := FinnhubCompanyProfile2.name p;
            CompanyProfileOut.exchange := FinnhubCompanyProfile2.exchange p;
            CompanyProfileOut.industry :=
              FinnhubCompanyProfile2.finnhubIndustry p;
            CompanyProfileOut.website := FinnhubCompanyProfile2.weburl p;
            CompanyProfileOut.market_capitalization :=
              FinnhubCompanyProfile2.marketCapitalization p;
            CompanyProfileOut.shares_outstanding :=
              FinnhubCompanyProfile2.shareOutstanding p;
            CompanyProfileOut.country :=
              Some (FinnhubCompanyProfile2.country p);
            CompanyProfileOut.currency :=
              Some (FinnhubCompanyProfile2.currency p);
            CompanyProfileOut.ipo_date := Some (FinnhubCompanyProfile2.ipo p);
            CompanyProfileOut.logo_url := FinnhubCompanyProfile2.logo p |}
  end.

End Company.

(** ** Upstream services and their cache
       ([app/services/finnhub_services.py])

    The [print] calls of the services are left out: they change neither a
    result nor the cache. *)

(** What the cache holds under ["data"]: an instance of one of the three
    response models. *)
Inductive Model :=
| ProfileModel (p : FinnhubCompanyProfile2.t)
| BasicFinancialsModel (b : FinnhubBasicFinancials.t)
| FinancialsReportModel (r : FinnhubFinancialsReport.t).

(** The [response_model] argument of [_fetch_from_finnhub]. *)
Inductive ModelClass :=
| FinnhubCompanyProfile2_class
| FinnhubBasicFinancials_class
| FinnhubFinancialsReport_class.

(** What [client.get(url)] does: fail with [httpx.RequestError], or answer
    with a status code and a body. *)
Inductive Reply :=
| NoReply
| Response (status_code : Z) (text : string).

Module CacheEntry.
Record t := mk {
  data : Model;
  timestamp : Z
}.
End CacheEntry.

(** The state the services run in.  [_finnhub_cache] is the module-level
    dictionary.  Time is counted in microseconds, the resolution of
    [datetime]; the [n]-th call of [datetime.now()] returns [clock n].
    [upstream] is the provider, [decode] stands for
    [response_model(.. response.json())] ([None] when decoding or validation
    raises), and [requests] logs the URLs fetched, latest first. *)
Record World := mkWorld {
  _finnhub_cache : gmap string CacheEntry.t;
  clock : nat -> Z;
  ticks : nat;
  upstream : string -> Reply;
  decode : ModelClass -> string -> option Model;
  requests : list string
}.

(** State and exceptions. *)
Definition M (A : Type) : Type := World -> Result A * World.

#[export] Instance M_ret : MRet M := fun _ a w => (Ok a, w).
#[export] Instance M_bind : MBind M := fun _ _ f m w =>
  match m w with
  | (Ok a, w') => f a w'
  | (Raise e, w') => (Raise e, w')
  end.

Definition raise {A} (e : Exn) : M A := fun w => (Raise e, w).

(** [try: ... except ...]: the outcome of the body, as a value. *)
Definition try {A} (m : M A) : M (Result A) := fun w =>
  let '(r, w') := m w in (Ok r, w').

(** A handler's pure part, run after the service call. *)
Definition lift {A} (r : Result A) : M A := fun w => (r, w).

Module Services.

Definition CACHE_EXPIRATION_SECONDS : Z := 300.

(** [timedelta(seconds=s)], in microseconds. *)
Definition timedelta (seconds : Z) : Z := seconds * 1000000.

Definition datetime_now : M Z := fun w =>
  (Ok (clock w (ticks w)),
   mkWorld (_finnhub_cache w) (clock w) (S (ticks w)) (upstream w)
     (decode w) (requests w)).

Definition cache_get (key : string) : M (option CacheEntry.t) := fun w =>
  (Ok (_finnhub_cache w !! key), w).

Definition cache_set (key : string) (entry : CacheEntry.t) : M () := fun w =>
  (Ok tt,
   mkWorld (<[key := entry]> (_finnhub_cache w)) (clock w) (ticks w)
     (upstream w) (decode w) (requests w)).

(** [_get_cache_key(endpoint, symbol, **kwargs)] *)
Definition _get_cache_key (endpoint symbol : string)
    (kwargs : list (string * string)) : string :=
  let key_parts :=
    ([endpoint; symbol]
     ++ map (fun kv => (fst kv ++ "=" ++ snd kv)%string)
          (Py.sorted fst false kwargs))%list in
  String.concat "_" key_parts.

(** [raise_for_status()] raises unless the status is a success (2xx). *)
Definition is_success (status_code : Z) : bool :=
  (200 <=? status_code) && (status_code <? 300).

Definition _fetch_from_finnhub (url : string) (response_model : ModelClass)
  : M Model := fun w =>
  let w' := mkWorld (_finnhub_cache w) (clock w) (ticks w) (upstream w)
              (decode w) (url :: requests w) in
  match upstream w url with
  | NoReply => (Raise RequestError, w')
  | Response status_code text =>
      if is_success status_code then
        match decode w response_model text with
        | Some data => (Ok data, w')
        | None => (Raise ValidationError, w')
        end
      else (Raise (HTTPStatusError status_code text), w')
  end.

(** The body shared, statement for statement, by the three service
    functions, which differ in their cache key, URL and response model. *)
Definition cached_fetch (cache_key url : string)
    (response_model : ModelClass) : M (option Model) :=
  cached_entry ← cache_get cache_key;
  fresh ← match cached_entry with
          | Some cached_entry =>
              now ← datetime_now;
              if now - CacheEntry.timestamp cached_entry
                 <? timedelta CACHE_EXPIRATION_SECONDS
              then mret (Some (CacheEntry.data cached_entry))
              else mret None
          | None => mret None
          end;
  match fresh with
  | Some data => mret (Some data)
  | None =>
      fetched ← try (_fetch_from_finnhub url response_model);
      match fetched with
      | Ok data =>
          now ← datetime_now;
          cache_set cache_key (CacheEntry.mk data now);;
          mret (Some data)
      | Raise (HTTPStatusError status_code text) =>
          if (status_code =? 400) && Py.str_in "Invalid symbol" text
          then mret None
          else raise (HTTPStatusError status_code text)
      | Raise e => raise e
      end
  end.

Definition get_company_profile (symbol api_key : string) : M (option Model) :=
  let cache_key := _get_cache_key "company_profile" symbol [] in
  let url := ("https://finnhub.io/api/v1/stock/profile2?symbol=" ++ symbol
              ++ "&token=" ++ api_key)%string in
  cached_fetch cache_key url FinnhubCompanyProfile2_class.

Definition get_basic_financials (symbol api_key metric_type : string)
  : M (option Model) :=
  let cache_key :=
    _get_cache_key "basic_financials" symbol [("metric", metric_type)] in
  let url := ("https://finnhub.io/api/v1/stock/metric?symbol=" ++ symbol
              ++ "&metric=" ++ metric_type ++ "&token=" ++ api_key)%string in
  cached_fetch cache_key url FinnhubBasicFinancials_class.

Definition get_financials_reported (symbol api_key report_type : string)
  : M (option Model) :=
  let cache_key :=
    _get_cache_key "financials_reported" symbol [("type", report_type)] in
  let url := ("https://finnhub.io/api/v1/stock/financials-reported?symbol="
              ++ symbol ++ "&type=" ++ report_type ++ "&token="
              ++ api_key)%string in
  cached_fetch cache_key url FinnhubFinancialsReport_class.

End Services.

(** ** The three endpoints *)

Module Endpoints.

(** Attribute access on the object a service returned: a field of the
    expected model, or [AttributeError] on an instance of another class. *)
Definition get_company_profile_endpoint (symbol api_key : string)
  : M CompanyProfileOut.t :=
  finnhub_data ← Services.get_company_profile symbol api_key;
  match finnhub_data with
  | None => lift (Company.profile_out None)
  | Some (ProfileModel p) => lift (Company.profile_out (Some p))
  | Some _ => raise (AttributeError "object" "ticker")
  end.

(** [float_of_str] is the reading of numeric strings that the
    [KeyMetricsOut] constructor applies. *)
Definition get_company_metrics_endpoint
    (float_of_str : string -> option float) (symbol api_key : string)
  : M KeyMetricsOut.t :=
  finnhub_data ← Services.get_basic_financials symbol api_key "all";
  match finnhub_data with
  | None => lift (Metrics.key_metrics float_of_str symbol None)
  | Some (BasicFinancialsModel b) =>
      lift (Metrics.key_metrics float_of_str symbol (Some b))
  | Some _ => raise (AttributeError "object" "metric")
  end.

Definition get_company_financials_endpoint (symbol api_key : string)
  : M FinancialReportsOut.t :=
  finnhub_data ← Services.get_financials_reported symbol api_key "annual";
  match finnhub_data with
  | None => lift (Financials.summarise symbol None)
  | Some (FinancialsReportModel r) =>
      lift (Financials.summarise symbol (Some r))
  | Some _ => raise (AttributeError "object" "data")
  end.

End Endpoints.

(** ** The specification's wording, as definitions

    These follow the sentences of the specification, not the code; the
    theorems below compare the two. *)

Module Spec.

(** RatioEngine: null if either operand is null; positive infinity if
    the denominator is zero; otherwise the quotient, rounded. *)
Definition ratio (numerator denominator : option float) (ndigits : Z)
  : option float :=
  match numerator, denominator with
  | Some n, Some d =>
      if (d =? 0)%float then Some infinity
      else Some (Py.round (n / d)%float ndigits)
  | _, _ => None
  end.

(** What the margins do instead: null also when the denominator is
    zero. *)
Definition margin (numerator denominator : option float) (ndigits : Z)
  : option float :=
  match numerator, denominator with
  | Some n, Some d =>
      if (d =? 0)%float then None
      else Some (Py.round (n / d)%float ndigits)
  | _, _ => None
  end.

(** GrowthEngine: null if either operand is null; with a zero base,
    positive infinity, negative infinity or 0.0 as the current value is
    above, below or equal to zero; otherwise the relative change in
    percent, rounded to 2 decimal places. *)
Definition growth (current previous : option float) : option float :=
  match current, previous with
  | Some c, Some p =>
      if (p =? 0)%float && (0 <? c)%float then Some infinity
      else if (p =? 0)%float && (c <? 0)%float then Some neg_infinity
      else if (p =? 0)%float && (c =? 0)%float then Some 0%float
      else Some (Py.round ((c - p) / p * 100)%float 2)
  | _, _ => None
  end.

(** HealthScorer: a ratio is usable only if non-null, finite and not
    NaN; net income and cash from operations count whenever non-null. *)
Definition usable (r : option float) : bool :=
  match r with
  | Some x => negb (Py.isinf x) && negb (Py.isnan x)
  | None => false
  end.

Definition present (x : option float) : bool :=
  match x with Some _ => true | None => false end.

Definition usable_factors (netIncome cashFromOps currentRatio debtToEquity
    : option float) : nat :=
  List.length
    (List.filter id [present netIncome; present cashFromOps;
                     usable currentRatio; usable debtToEquity]).

(** +1 when the amount is positive. *)
Definition points_positive (x : option float) : Z :=
  match x with
  | Some v => if (0 <? v)%float then 1 else 0
  | None => 0
  end.

(** +1 for currentRatio ≥ 1.5, −1 for currentRatio < 1.0, neutral
    between; nothing for an unusable ratio. *)
Definition points_current_ratio (r : option float) : Z :=
  match r with
  | Some x =>
      if usable r then
        if (1.5 <=? x)%float then 1 else if (x <? 1)%float then -1 else 0
      else 0
  | None => 0
  end.

(** +1 for debtToEquity ≤ 1.0, −1 for debtToEquity > 2.0, neutral
    between; nothing for an unusable ratio. *)
Definition points_debt_to_equity (r : option float) : Z :=
  match r with
  | Some x =>
      if usable r then
        if (x <=? 1)%float then 1 else if (2 <? x)%float then -1 else 0
      else 0
  | None => 0
  end.

Definition score (netIncome cashFromOps currentRatio debtToEquity
    : option float) : Z :=
  points_positive netIncome + points_positive cashFromOps
  + points_current_ratio currentRatio + points_debt_to_equity debtToEquity.

Definition assess (netIncome cashFromOps currentRatio debtToEquity
    : option float) : option string :=
  match netIncome, cashFromOps, currentRatio, debtToEquity with
  | None, None, None, None => None
  | _, _, _, _ =>
      match usable_factors netIncome cashFromOps currentRatio debtToEquity
      with
      | O => None
      | S _ =>
          let s := score netIncome cashFromOps currentRatio debtToEquity in
          if 2 <=? s then Some "Strong"
          else if 0 <=? s then Some "Stable"
          else Some "Concerning"
      end
  end.

(** ConceptResolver: the resolved form of a raw item. *)
Definition normalise (item : ReportItem.t) : FinancialItemOut.t :=
  FinancialItemOut.mk (ReportItem.label item) (ReportItem.value item)
    (Some (ReportItem.unit item)).

(** The first item, in document order, tagged with [concept]. *)
Definition first_tagged (items : list ReportItem.t) (concept : string)
  : option ReportItem.t :=
  List.find (fun item => String.eqb (ReportItem.concept item) concept) items.

(** Candidates are tried in priority order; the first candidate that tags
    some item wins, whatever the document order. *)
Fixpoint resolve_list (items : list ReportItem.t) (candidates : list string)
  : option FinancialItemOut.t :=
  match candidates with
  | [] => None
  | c :: rest =>
      match first_tagged items c with
      | Some item => Some (normalise item)
      | None => resolve_list items rest
      end
  end.

Definition resolve (items : option (list ReportItem.t))
    (candidates : list string) : option FinancialItemOut.t :=
  match items with
  | Some l => resolve_list l candidates
  | None => None
  end.

End Spec.

(** A filing's own revenue and net income: the temporaries
    [current_revenue] and [current_net_income_ic] of its iteration. *)
Definition filing_revenue (f : FinancialFilingData.t) : option float :=
  match FinancialFilingData.report f with
  | Some r => Financials.current_revenue (Financials.current_of_report r)
  | None => None
  end.

Definition filing_net_income (f : FinancialFilingData.t) : option float :=
  match FinancialFilingData.report f with
  | Some r => Financials.current_net_income_ic (Financials.current_of_report r)
  | None => None
  end.

(** The ratios computed in a filing's iteration, before the output decides
    whether to include them. *)
Definition filing_ratios (r : FinancialReportDetails.t)
  : CalculatedRatiosOut.t :=
  Financials.calculate_ratios (Financials.current_of_report r).

(** ReportAssembler: the growth fields of a filing sequence, as a fold
    that carries the previous revenue and net income, newest filing
    first. *)
Fixpoint growth_pairs (filings : list FinancialFilingData.t)
    (previousRevenue previousNetIncome : option float)
  : list (option float * option float) :=
  match filings with
  | [] => []
  | f :: older =>
      (Financials._calculate_growth_rate (filing_revenue f) previousRevenue,
       Financials._calculate_growth_rate (filing_net_income f)
         previousNetIncome)
      :: growth_pairs older (filing_revenue f) (filing_net_income f)
  end.

(** The two growth fields of an output filing. *)
Definition growth_fields (out : FinancialFilingOut.t)
  : option float * option float :=
  (FinancialFilingOut.revenue_growth_yoy_percent out,
   FinancialFilingOut.net_income_growth_yoy_percent out).

(** The three service fetches, with the key and URL each one builds. *)
Inductive Fetch :=
| Profile (symbol api_key : string)
| BasicFinancials (symbol api_key metric_type : string)
| ReportedFinancials (symbol api_key report_type : string).

Definition run (f : Fetch) : M (option Model) :=
  match f with
  | Profile symbol api_key => Services.get_company_profile symbol api_key
  | BasicFinancials symbol api_key metric_type =>
      Services.get_basic_financials symbol api_key metric_type
  | ReportedFinancials symbol api_key report_type =>
      Services.get_financials_reported symbol api_key report_type
  end.

Definition key_of (f : Fetch) : string :=
  match f with
  | Profile symbol _ => "company_profile_" ++ symbol
  | BasicFinancials symbol _ metric_type =>
      "basic_financials_" ++ symbol ++ "_metric=" ++ metric_type
  | ReportedFinancials symbol _ report_type =>
      "financials_reported_" ++ symbol ++ "_type=" ++ report_type
  end.

Definition url_of (f : Fetch) : string :=
  match f with
  | Profile symbol api_key =>
      "https://finnhub.io/api/v1/stock/profile2?symbol=" ++ symbol
      ++ "&token=" ++ api_key
  | BasicFinancials symbol api_key metric_type =>
      "https://finnhub.io/api/v1/stock/metric?symbol=" ++ symbol
      ++ "&metric=" ++ metric_type ++ "&token=" ++ api_key
  | ReportedFinancials symbol api_key report_type =>
      "https://finnhub.io/api/v1/stock/financials-reported?symbol=" ++ symbol
      ++ "&type=" ++ report_type ++ "&token=" ++ api_key
  end.

Definition model_of (f : Fetch) : ModelClass :=
  match f with
  | Profile _ _ => FinnhubCompanyProfile2_class
  | BasicFinancials _ _ _ => FinnhubBasicFinancials_class
  | ReportedFinancials _ _ _ => FinnhubFinancialsReport_class
  end.

(** A live entry: one whose age, at the time of the check, is strictly less
    than 300 seconds. *)
Definition live (w : World) (entry : CacheEntry.t) : Prop :=
  clock w (ticks w) - CacheEntry.timestamp entry < 300 * 1000000.

(** What the fetch yields in world [w]: the decoded payload when the
    provider answers with a success status and the body validates. *)
Definition fetched (w : World) (f : Fetch) : option Model :=
  match upstream w (url_of f) with
  | Response status_code text =>
      if Services.is_success status_code
      then decode w (model_of f) text
      else None
  | NoReply => None
  end.

(** The invalid-symbol case of a fetch: no live cache entry, and the
    provider answers 400 with a body that mentions "Invalid symbol". *)
Definition rejected (w : World) (f : Fetch) : Prop :=
  (forall entry, _finnhub_cache w !! key_of f = Some entry -> ~ live w entry)
  /\ exists text,
       upstream w (url_of f) = Response 400 text
       /\ Py.str_in "Invalid symbol" text = true.

(** ** The order of IEEE comparisons

    [SFcompare] orders the non-NaN values lexicographically by a class
    (negative infinity, negative, zero, positive, positive infinity), then
    by exponent and mantissa.  The three components below make that order
    available to [lia]. *)

Definition rank_class (x : spec_float) : Z :=
  match x with
  | S754_infinity true => -2
  | S754_finite true _ _ => -1
  | S754_finite false _ _ => 1
  | S754_infinity false => 2
  | _ => 0
  end.

Definition rank_exp (x : spec_float) : Z :=
  match x with
  | S754_finite false _ e => e
  | S754_finite true _ e => - e
  | _ => 0
  end.

Definition rank_man (x : spec_float) : Z :=
  match x with
  | S754_finite false m _ => Zpos m
  | S754_finite true m _ => Zneg m
  | _ => 0
  end.

Definition rank_lt (x y : spec_float) : Prop :=
  rank_class x < rank_class y
  \/ (rank_class x = rank_class y
      /\ (rank_exp x < rank_exp y
          \/ (rank_exp x = rank_exp y /\ rank_man x < rank_man y))).

Definition rank_eq (x y : spec_float) : Prop :=
  rank_class x = rank_class y /\ rank_exp x = rank_exp y
  /\ rank_man x = rank_man y.

(** ** Sample inputs *)

Module Sample.

Definition item (concept : string) (value : option float) : ReportItem.t :=
  ReportItem.mk concept "usd" concept value.

Definition report_of (ic : list ReportItem.t) : FinancialReportDetails.t :=
  FinancialReportDetails.mk None (Some ic) None.

Definition filing (accessNumber : string) (quarter : Z) (form : string)
    (endDate : option string) (report : option FinancialReportDetails.t)
  : FinancialFilingData.t :=
  FinancialFilingData.mk accessNumber "ACME" "0000001" 2022 quarter form
    "2022-01-01" endDate "2023-02-01" "2023-02-01" report.

Definition revenue_report (revenue net_income : float)
  : FinancialReportDetails.t :=
  report_of [item "us-gaap_Revenues" (Some revenue);
             item "us-gaap_NetIncomeLoss" (Some net_income)].

Definition quarterly : FinancialFilingData.t :=
  filing "q1" 1 "10-Q" (Some "2023-03-31") (Some (revenue_report 30 3)).
Definition undated_a : FinancialFilingData.t :=
  filing "undated-a" 0 "10-K" None (Some (revenue_report 80 0)).
Definition fy2021_a : FinancialFilingData.t :=
  filing "2021-a" 0 "10-K" (Some "2021-12-31") (Some (revenue_report 100 10)).
Definition fy2022 : FinancialFilingData.t :=
  filing "2022" 0 "10-K" (Some "2022-12-31") (Some (revenue_report 125 (-5))).
Definition no_payload : FinancialFilingData.t :=
  filing "no-payload" 0 "10-K" (Some "2023-12-31") None.
Definition undated_b : FinancialFilingData.t :=
  filing "undated-b" 0 "10-K" None (Some (revenue_report 0 0)).
Definition fy2021_b : FinancialFilingData.t :=
  filing "2021-b" 0 "10-K" (Some "2021-12-31") (Some (revenue_report 100 20)).

Definition data : list FinancialFilingData.t :=
  [quarterly; undated_a; fy2021_a; fy2022; no_payload; undated_b; fy2021_b].

Definition profile : FinnhubCompanyProfile2.t :=
  FinnhubCompanyProfile2.mk "US" "USD" "NASDAQ" "1999-01-01" 1000 "Acme Corp"
    None 50 "ACME" None None (Some "Tools").

Definition refreshed : FinnhubCompanyProfile2.t :=
  FinnhubCompanyProfile2.mk "US" "USD" "NASDAQ" "1999-01-01" 1200 "Acme Corp"
    None 50 "ACME" None None (Some "Tools").

(** A world whose cache holds the ACME profile, stored at time 0; every
    reading of the clock gives [now] seconds. *)
Definition world (now : Z) (upstream : string -> Reply) : World :=
  {| _finnhub_cache :=
       {[ "company_profile_ACME" := CacheEntry.mk (ProfileModel profile) 0 ]};
     clock := fun _ => now * 1000000;
     ticks := 0;
     upstream := upstream;
     decode := fun _ _ => Some (ProfileModel refreshed);
     requests := [] |}.

Definition answers (_ : string) : Reply := Response 200 "{}".
Definition unreachable (_ : string) : Reply := NoReply.
Definition invalid_symbol (_ : string) : Reply :=
  Response 400 "error: Invalid symbol".

Definition empty_world (upstream : string -> Reply) : World :=
  {| _finnhub_cache := ∅;
     clock := fun _ => 0;
     ticks := 0;
     upstream := upstream;
     decode := fun _ _ => None;
     requests := [] |}.

Definition metric_data : FinnhubMetricData.t :=
  {| FinnhubMetricData.peTTM := Some 20%float;
     FinnhubMetricData.psTTM := None;
     FinnhubMetricData.pb := None;
     FinnhubMetricData.epsTTM := None;
     FinnhubMetricData.roeTTM := None;
     FinnhubMetricData.roaTTM := None;
     FinnhubMetricData.netProfitMarginTTM := Some 0.25%float;
     FinnhubMetricData.grossMarginTTM := None;
     FinnhubMetricData.operatingMarginTTM := None;
     FinnhubMetricData.currentRatioAnnual := Some 1.5%float;
     FinnhubMetricData.quickRatioAnnual := None;
     FinnhubMetricData.totalDebt_totalEquityAnnual := None;
     FinnhubMetricData.revenueGrowthTTMYoy := Some 0.5%float;
     FinnhubMetricData.epsGrowthTTMYoy := Some 0.25%float;
     FinnhubMetricData.dividendPerShareTTM := None;
     FinnhubMetricData.currentDividendYieldTTM := None;
     FinnhubMetricData.beta := None;
     FinnhubMetricData.marketCapitalization := None;
     FinnhubMetricData.fifty_two_week_high := None;
     FinnhubMetricData.fifty_two_week_low := None;
     FinnhubMetricData.cashFlowPerShareTTM := None;
     FinnhubMetricData.extra := [("quickRatioQuarterly", VFloat 1.25)] |}.

Definition basic_financials : FinnhubBasicFinancials.t :=
  FinnhubBasicFinancials.mk (Some metric_data) "all" (Some "ACME").

(** A reading of numeric strings that knows the one used below. *)
Definition float_of_str (s : string) : option float :=
  if String.eqb s "1.5" then Some 1.5%float else None.

(** A bundle whose quick ratio came as a string, and whose 52-week range
    is given. *)
Definition quoted_metric_data : FinnhubMetricData.t :=
  FinnhubMetricData.mk None None None None None None None None None None
    None None (Some 0.5%float) (Some 0.25%float) None None None None
    (Some 180%float) (Some 120%float) None
    [("quickRatioQuarterly", VStr "1.5")].

Definition quoted_basic_financials : FinnhubBasicFinancials.t :=
  FinnhubBasicFinancials.mk (Some quoted_metric_data) "all" (Some "ACME").

(** A world with an empty cache whose upstream answers every request with
    the bundle [b]. *)
Definition metrics_world (b : FinnhubBasicFinancials.t) : World :=
  {| _finnhub_cache := ∅;
     clock := fun _ => 0;
     ticks := 0;
     upstream := answers;
     decode := fun _ _ => Some (BasicFinancialsModel b);
     requests := [] |}.

End Sample.

(** ** Configuration ([app/core/config.py]) *)

Module Config.

(** A call either returns or raises [ValueError] with a message. *)
Inductive Outcome (A : Type) :=
| Returned (a : A)
| ValueError (message : string).
Arguments Returned {A} a.
Arguments ValueError {A} message.

(** The class attribute [Settings.finnhub_api_key], evaluated once from the
    process environment: [os.getenv("FINNHUB_API_KEY", "")]. *)
Definition finnhub_api_key (environ : gmap string string) : string :=
  default "" (environ !! "FINNHUB_API_KEY").

(** An instance of [Settings]; it reads [finnhub_api_key] from its class. *)
Record Settings := mkSettings {
  settings_finnhub_api_key : string
}.

(** Truthiness of a [str]. *)
Definition truthy (s : string) : bool :=
  match s with
  | String _ _ => true
  | EmptyString => false
  end.

(** [Settings()]. *)
Definition Settings_init (environ : gmap string string) : Outcome Settings :=
  if negb (truthy (finnhub_api_key environ))
  then ValueError "FINNHUB_API_KEY environment variable not set."
  else Returned (mkSettings (finnhub_api_key environ)).

(** [get_settings], under [lru_cache()]: the state is the cached instance,
    if any; a call that raises caches nothing. *)
Definition get_settings (environ : gmap string string)
    (cached : option Settings) : Outcome Settings * option Settings :=
  match cached with
  | Some settings => (Returned settings, cached)
  | None =>
      match Settings_init environ with
      | Returned settings => (Returned settings, Some settings)
      | ValueError message => (ValueError message, None)
      end
  end.

Definition get_api_key (environ : gmap string string)
    (cached : option Settings) : Outcome string * option Settings :=
  match get_settings environ cached with
  | (Returned settings, cached') =>
      if negb (truthy (settings_finnhub_api_key settings))
      then (ValueError "Finnhub API Key is not configured.", cached')
      else (Returned (settings_finnhub_api_key settings), cached')
  | (ValueError message, cached') => (ValueError message, cached')
  end.

(** [n] successive calls of [get_api_key]: the outcomes, first call first,
    and the final state of the [lru_cache]. *)
Fixpoint calls (environ : gmap string string) (n : nat)
    (cached : option Settings) : list (Outcome string) * option Settings :=
  match n with
  | O => ([], cached)
  | S n' =>
      let '(outcome, cached') := get_api_key environ cached in
      let '(later, final) := calls environ n' cached' in
      (outcome :: later, final)
  end.

End Config.

(** The service call each endpoint makes, and the cache key it uses. *)
Inductive Route :=
| ProfileRoute
| MetricsRoute
| FinancialsRoute.

Definition endpoint_fetch (route : Route) (symbol api_key : string) : Fetch :=
  match route with
  | ProfileRoute => Profile symbol api_key
  | MetricsRoute => BasicFinancials symbol api_key "all"
  | FinancialsRoute => ReportedFinancials symbol api_key "annual"
  end.

Definition endpoint_key (route : Route) (symbol : string) : string :=
  match route with
  | ProfileRoute => Services._get_cache_key "company_profile" symbol []
  | MetricsRoute =>
      Services._get_cache_key "basic_financials" symbol [("metric", "all")]
  | FinancialsRoute =>
      Services._get_cache_key "financials_reported" symbol
        [("type", "annual")]
  end.

(** One iteration of the handler's loop produced [out] from [f], whatever
    the carried state was. *)
Definition iteration (f : FinancialFilingData.t) (out : FinancialFilingOut.t)
  : Prop :=
  exists previous_year_values previous_year_values',
    Financials.loop_body f previous_year_values
    = Ok (out, previous_year_values').

(** The filing metadata the output repeats. *)
Definition same_metadata (f : FinancialFilingData.t)
    (out : FinancialFilingOut.t) : Prop :=
  FinancialFilingOut.symbol out = FinancialFilingData.symbol f
  /\ FinancialFilingOut.access_number out = FinancialFilingData.accessNumber f
  /\ FinancialFilingOut.form_type out = FinancialFilingData.form f
  /\ FinancialFilingOut.year out = FinancialFilingData.year f
  /\ FinancialFilingOut.quarter out = FinancialFilingData.quarter f
  /\ FinancialFilingOut.start_date out
     = Some (FinancialFilingData.startDate f)
  /\ FinancialFilingOut.end_date out = FinancialFilingData.endDate f
  /\ FinancialFilingOut.filed_date out
     = Some (FinancialFilingData.filedDate f)
  /\ FinancialFilingOut.accepted_date out
     = Some (FinancialFilingData.acceptedDate f).

(** Every non-null slot holds the resolved form of an item of the raw
    section. *)
Definition traced (section : option (list ReportItem.t))
    (slots : list (option FinancialItemOut.t)) : Prop :=
  Forall (fun slot =>
            forall resolved, slot = Some resolved ->
            exists items item,
              section = Some items /\ In item items
              /\ resolved = Spec.normalise item) slots.

(** The messages of the two not-found conditions of the
    financial-statements endpoint. *)
Definition no_reports_detail (symbol : string) : string :=
  "No annual financial reports found for " ++ symbol ++
  ". It might be an invalid symbol or data is not available.".

Definition no_10K_detail (symbol : string) : string :=
  "No 10-K annual reports found for " ++ symbol ++ " after filtering.".

(** The three slots that no statement of an output filing fills. *)
Definition unpopulated (out : FinancialFilingOut.t) : Prop :=
  (forall s, FinancialFilingOut.income_statement out = Some s ->
             IncomeStatementOut.operating_expenses s = None)
  /\ (forall s, FinancialFilingOut.balance_sheet out = Some s ->
                BalanceSheetOut.goodwill s = None)
  /\ (forall s, FinancialFilingOut.cash_flow_statement out = Some s ->
                CashFlowStatementOut.changes_in_working_capital s = None).

(** Each statement of the output filing is traced to the raw section of
    the same name in the filing's report. *)
Definition traced_filing (f : FinancialFilingData.t)
    (out : FinancialFilingOut.t) : Prop :=
  exists r,
    FinancialFilingData.report f = Some r
    /\ (forall s, FinancialFilingOut.income_statement out = Some s ->
                  traced (FinancialReportDetails.ic r)
                    (IncomeStatementOut.model_dump_values s))
    /\ (forall s, FinancialFilingOut.balance_sheet out = Some s ->
                  traced (FinancialReportDetails.bs r)
                    (BalanceSheetOut.model_dump_values s))
    /\ (forall s, FinancialFilingOut.cash_flow_statement out = Some s ->
                  traced (FinancialReportDetails.cf r)
                    (CashFlowStatementOut.model_dump_values s)).

(** What the key-metrics output holds, field by field, for a provider
    symbol [s], metric bundle [m] and validated quick ratio. *)
Definition key_metrics_out (s : string) (m : FinnhubMetricData.t)
    (quick_ratio : option float) : KeyMetricsOut.t :=
  {| KeyMetricsOut.symbol := s;
     KeyMetricsOut.pe_ratio_ttm := FinnhubMetricData.peTTM m;
     KeyMetricsOut.ps_ratio_ttm := FinnhubMetricData.psTTM m;
     KeyMetricsOut.pb_ratio := FinnhubMetricData.pb m;
     KeyMetricsOut.market_capitalization :=
       FinnhubMetricData.marketCapitalization m;
     KeyMetricsOut.eps_ttm := FinnhubMetricData.epsTTM m;
     KeyMetricsOut.roe_ttm := FinnhubMetricData.roeTTM m;
     KeyMetricsOut.roa_ttm := FinnhubMetricData.roaTTM m;
     KeyMetricsOut.net_profit_margin_ttm :=
       FinnhubMetricData.netProfitMarginTTM m;
     KeyMetricsOut.gross_margin_ttm := FinnhubMetricData.grossMarginTTM m;
     KeyMetricsOut.operating_margin_ttm :=
       FinnhubMetricData.operatingMarginTTM m;
     KeyMetricsOut.current_ratio_annual :=
       FinnhubMetricData.currentRatioAnnual m;
     KeyMetricsOut.quick_ratio_annual := quick_ratio;
     KeyMetricsOut.total_debt_to_equity_annual :=
       FinnhubMetricData.totalDebt_totalEquityAnnual m;
     KeyMetricsOut.revenue_growth_ttm_yoy := None;
     KeyMetricsOut.eps_growth_ttm_yoy := None;
     KeyMetricsOut.dividend_per_share_ttm :=
       FinnhubMetricData.dividendPerShareTTM m;
     KeyMetricsOut.current_dividend_yield_ttm :=
       FinnhubMetricData.currentDividendYieldTTM m;
     KeyMetricsOut.beta := FinnhubMetricData.beta m;
     KeyMetricsOut.fifty_two_week_high := None;
     KeyMetricsOut.fifty_two_week_low := None;
     KeyMetricsOut.cash_flow_per_share_ttm :=
       FinnhubMetricData.cashFlowPerShareTTM m;
     KeyMetricsOut.valuation_status :=
       Metrics._assess_valuation (FinnhubMetricData.peTTM m);
     KeyMetricsOut.profitability_assessment :=
       Metrics._assess_profitability (FinnhubMetricData.netProfitMarginTTM m);
     KeyMetricsOut.liquidity_assessment :=
       Metrics._assess_liquidity (FinnhubMetricData.currentRatioAnnual m) |}.

Definition no_metrics_detail (symbol : string) : string :=
  "No key metrics found for " ++ symbol ++
  ". It might be an invalid symbol or data is not available.".


(** What every call of [get_api_key] yields in a given environment. *)
Definition api_key_outcome (environ : gmap string string)
  : Config.Outcome string :=
  match environ !! "FINNHUB_API_KEY" with
  | Some (String c key) => Config.Returned (String c key)
  | _ => Config.ValueError "FINNHUB_API_KEY environment variable not set."
  end.

(** * Properties *)

(** ** Rounding *)

(** [round] works on the exact value of the double, half-to-even, and
    leaves infinities and NaN as they are. *)
Example round_samples :
  Py.round 0.125 2 = (12 / 100)%float
  /\ Py.round 0.375 2 = (38 / 100)%float
  /\ Py.round (1 / 3) 4 = (3333 / 10000)%float
  /\ Py.round (2 / 3) 4 = (6667 / 10000)%float
  /\ Py.round (-1 / 1024) 2 = (-0)%float
  /\ Py.round 1234.5 2 = 1234.5%float
  /\ Py.round infinity 2 = infinity
  /\ Py.round neg_infinity 4 = neg_infinity
  /\ Py.round nan 2 = nan.
Proof. repeat apply conj; reflexivity. Qed.

(** ** Facts on float comparisons *)

Lemma SFcompare_rank (x y : spec_float) (c : comparison) :
  SFcompare x y = Some c ->
  match c with
  | Lt => rank_lt x y
  | Eq => rank_eq x y
  | Gt => rank_lt y x
  end.
Proof.
  unfold rank_lt, rank_eq.
  destruct x as [[]|[]| |[] mx ex], y as [[]|[]| |[] my ey]; simpl;
    try discriminate; try (intros [= <-]; simpl; lia).
  - destruct (Z.compare_spec ex ey); simpl; try (intros [= <-]; lia).
    change (Pos.compare_cont Eq mx my) with (Pos.compare mx my).
    destruct (Pos.compare_spec mx my); simpl; intros [= <-]; lia.
  - destruct (Z.compare_spec ex ey); simpl; try (intros [= <-]; lia).
    change (Pos.compare_cont Eq mx my) with (Pos.compare mx my).
    destruct (Pos.compare_spec mx my); simpl; intros [= <-]; lia.
Qed.

Lemma ltb_rank (x y : float) :
  (x <? y)%float = true -> rank_lt (Prim2SF x) (Prim2SF y).
Proof.
  rewrite FloatAxioms.ltb_spec. unfold SFltb.
  destruct (SFcompare (Prim2SF x) (Prim2SF y)) as [[]|] eqn:E;
    try discriminate.
  intros _. exact (SFcompare_rank _ _ _ E).
Qed.

Lemma leb_rank (x y : float) :
  (x <=? y)%float = true ->
  rank_lt (Prim2SF x) (Prim2SF y) \/ rank_eq (Prim2SF x) (Prim2SF y).
Proof.
  rewrite FloatAxioms.leb_spec. unfold SFleb.
  destruct (SFcompare (Prim2SF x) (Prim2SF y)) as [[]|] eqn:E;
    try discriminate; intros _.
  - right. exact (SFcompare_rank _ _ _ E).
  - left. exact (SFcompare_rank _ _ _ E).
Qed.

Lemma eqb_rank (x y : float) :
  (x =? y)%float = true -> rank_eq (Prim2SF x) (Prim2SF y).
Proof.
  rewrite FloatAxioms.eqb_spec. unfold SFeqb.
  destruct (SFcompare (Prim2SF x) (Prim2SF y)) as [[]|] eqn:E;
    try discriminate.
  intros _. exact (SFcompare_rank _ _ _ E).
Qed.

(** Replaces the ranks of float constants by their values. *)
Ltac eval_rank_consts :=
  repeat match goal with
    | H : context [rank_class (Prim2SF ?c)] |- _ =>
        let v := eval vm_compute in (rank_class (Prim2SF c)) in
        change (rank_class (Prim2SF c)) with v in H
    | H : context [rank_exp (Prim2SF ?c)] |- _ =>
        let v := eval vm_compute in (rank_exp (Prim2SF c)) in
        change (rank_exp (Prim2SF c)) with v in H
    | H : context [rank_man (Prim2SF ?c)] |- _ =>
        let v := eval vm_compute in (rank_man (Prim2SF c)) in
        change (rank_man (Prim2SF c)) with v in H
    end.

(** Turns the comparisons that hold into facts on ranks, evaluates the
    ranks of the constants, and leaves the rest to [lia].  A goal
    [_ = false] is proved by refuting the comparison. *)
Ltac float_order :=
  repeat match goal with
    | |- _ = false => apply not_true_is_false; intro
    | |- _ /\ _ => split
    end;
  repeat match goal with
    | H : (_ <? _)%float = true |- _ => apply ltb_rank in H
    | H : (_ <=? _)%float = true |- _ => apply leb_rank in H
    | H : (_ =? _)%float = true |- _ => apply eqb_rank in H
    end;
  unfold rank_lt, rank_eq in *;
  repeat match goal with
    | H : context [Prim2SF ?x] |- _ =>
        is_var x;
        generalize dependent (rank_class (Prim2SF x));
        generalize dependent (rank_exp (Prim2SF x));
        generalize dependent (rank_man (Prim2SF x)); intros
    end;
  eval_rank_consts; lia.

Lemma ltb_asym (x y : float) : (x <? y)%float = true -> (y <? x)%float = false.
Proof. intros H. float_order. Qed.

(** A value that is not NaN is above, below or equal to zero. *)
Lemma float_zero_trichotomy (x : float) :
  PrimFloat.is_nan x = false ->
  (0 <? x)%float = true \/ (x <? 0)%float = true \/ (x =? 0)%float = true.
Proof.
  unfold PrimFloat.is_nan.
  rewrite FloatAxioms.eqb_spec, !FloatAxioms.ltb_spec, FloatAxioms.eqb_spec.
  change (Prim2SF 0) with (S754_zero false).
  unfold SFltb, SFeqb.
  destruct (Prim2SF x) as [s|s| |s m e]; simpl; try discriminate;
    destruct s; auto.
Qed.


(** ** GrowthEngine *)

(** A NaN is neither above nor below zero. *)
Lemma nan_not_ordered (x : float) :
  Py.isnan x = true -> (0 <? x)%float = false /\ (x <? 0)%float = false.
Proof.
  unfold Py.isnan, PrimFloat.is_nan.
  rewrite FloatAxioms.eqb_spec, !FloatAxioms.ltb_spec.
  change (Prim2SF 0) with (S754_zero false).
  unfold SFltb, SFeqb.
  destruct (Prim2SF x) as [s|s| |s m e]; simpl; try discriminate;
    [destruct s; discriminate | auto | ].
  rewrite Pos.compare_refl, Z.compare_refl. destruct s; discriminate.
Qed.

(** C2, as the specification states it, fails: with a zero base and a NaN
    current value, which is neither above, below nor equal to zero, the
    function returns 0.0, where the stated rule leaves only the rounded
    relative change, which is NaN. *)
Lemma calculate_growth_rate_counterexample :
  (0 =? 0)%float = true
  /\ (0 <? nan)%float = false
  /\ (nan <? 0)%float = false
  /\ (nan =? 0)%float = false
  /\ Financials._calculate_growth_rate (Some nan) (Some 0%float)
     = Some 0%float
  /\ Spec.growth (Some nan) (Some 0%float)
     = Some (Py.round ((nan - 0) / 0 * 100)%float 2)
  /\ Py.isnan (Py.round ((nan - 0) / 0 * 100)%float 2) = true
  /\ Financials._calculate_growth_rate (Some nan) (Some 0%float)
     <> Spec.growth (Some nan) (Some 0%float).
Proof.
  repeat apply conj; try reflexivity.
  intros H.
  apply (f_equal (fun r => match r with
                           | Some x => Py.isnan x
                           | None => false
                           end)) in H.
  vm_compute in H. discriminate H.
Qed.

(** C2, amended. For all optional-float inputs, the year-over-year growth
    function returns null if either operand is null; positive infinity if
    previous == 0 and current > 0; negative infinity if previous == 0 and
    current < 0; 0.0 if previous == 0 and current == 0 or current is NaN;
    and otherwise, that is when previous != 0,
    ((current − previous) / previous) × 100 rounded to 2 decimal places.
    The cases of a zero base cover every current value. *)
Theorem calculate_growth_rate_cases (current previous : float) :
  (forall p, Financials._calculate_growth_rate None p = None)
  /\ (forall c, Financials._calculate_growth_rate c None = None)
  /\ ((previous =? 0)%float = true -> (0 <? current)%float = true ->
      Financials._calculate_growth_rate (Some current) (Some previous)
      = Some infinity)
  /\ ((previous =? 0)%float = true -> (current <? 0)%float = true ->
      Financials._calculate_growth_rate (Some current) (Some previous)
      = Some neg_infinity)
  /\ ((previous =? 0)%float = true ->
      (current =? 0)%float = true \/ Py.isnan current = true ->
      Financials._calculate_growth_rate (Some current) (Some previous)
      = Some 0%float)
  /\ ((previous =? 0)%float = false ->
      Financials._calculate_growth_rate (Some current) (Some previous)
      = Some (Py.round ((current - previous) / previous * 100)%float 2))
  /\ ((0 <? current)%float = true \/ (current <? 0)%float = true
      \/ (current =? 0)%float = true \/ Py.isnan current = true).
Proof.
  unfold Financials._calculate_growth_rate, Py.eq0.
  repeat apply conj.
  - reflexivity.
  - intros [c|]; reflexivity.
  - intros Hp Hc. rewrite Hp, Hc. reflexivity.
  - intros Hp Hc. rewrite Hp, Hc.
    replace (0 <? current)%float with false; [reflexivity|].
    symmetry. float_order.
  - intros Hp Hc. rewrite Hp.
    assert ((0 <? current)%float = false /\ (current <? 0)%float = false)
      as [-> ->].
    { destruct Hc as [Hc|Hc]; [float_order | exact (nan_not_ordered _ Hc)]. }
    reflexivity.
  - intros ->. reflexivity.
  - destruct (Py.isnan current) eqn:Hnan; [auto|].
    destruct (float_zero_trichotomy current Hnan) as [H|[H|H]]; auto.
Qed.

Lemma calculate_growth_rate_cases_witness :
  Financials._calculate_growth_rate (Some 120%float) (Some 0%float)
  = Some infinity
  /\ Financials._calculate_growth_rate (Some (-50)%float) (Some 0%float)
     = Some neg_infinity
  /\ Financials._calculate_growth_rate (Some 0%float) (Some 0%float)
     = Some 0%float
  /\ Financials._calculate_growth_rate (Some nan) (Some 0%float)
     = Some 0%float
  /\ Financials._calculate_growth_rate (Some 110%float) (Some 100%float)
     = Some 10%float.
Proof.
  repeat apply conj.
  - destruct (calculate_growth_rate_cases 120 0) as (_ & _ & H & _).
    apply H; reflexivity.
  - destruct (calculate_growth_rate_cases (-50) 0) as (_ & _ & _ & H & _).
    apply H; reflexivity.
  - destruct (calculate_growth_rate_cases 0 0) as (_ & _ & _ & _ & H & _).
    apply H; [reflexivity | left; reflexivity].
  - destruct (calculate_growth_rate_cases nan 0) as (_ & _ & _ & _ & H & _).
    apply H; [reflexivity | right; reflexivity].
  - destruct (calculate_growth_rate_cases 110 100)
      as (_ & _ & _ & _ & _ & H & _).
    apply H; reflexivity.
Defined.


(** ** HealthScorer *)

(** C3. The health assessment returns null when all four inputs are null
    or when zero factors are usable (a ratio is usable only if non-null,
    finite and not NaN; net income and cash from operations count whenever
    non-null); otherwise the score starts at 0 and gains +1 for
    netIncome > 0, +1 for cashFromOps > 0, +1 for currentRatio ≥ 1.5 and −1
    for currentRatio < 1.0, +1 for debtToEquity ≤ 1.0 and −1 for
    debtToEquity > 2.0, and the result is "Strong" if score ≥ 2, "Stable"
    if score ≥ 0, else "Concerning": the code computes [Spec.assess]. *)
Theorem assess_financial_health_spec
    (net_income cash_from_operating_activities current_ratio
     debt_to_equity_ratio : option float) :
  Financials._assess_financial_health net_income
    cash_from_operating_activities current_ratio debt_to_equity_ratio
  = Spec.assess net_income cash_from_operating_activities current_ratio
      debt_to_equity_ratio.
Proof.
  unfold Financials._assess_financial_health, Spec.assess, Spec.score,
    Spec.usable_factors, Spec.points_positive, Spec.points_current_ratio,
    Spec.points_debt_to_equity, Spec.usable, Spec.present,
    Financials.health_label.
  destruct net_income as [ni|], cash_from_operating_activities as [cash|],
    current_ratio as [cr|], debt_to_equity_ratio as [de|]; simpl;
    repeat match goal with
      | |- context [Py.isinf ?x] => destruct (Py.isinf x); simpl
      | |- context [Py.isnan ?x] => destruct (Py.isnan x); simpl
      end;
    repeat match goal with
      | |- context [(?a <? ?b)%float] => destruct (a <? b)%float; simpl
      | |- context [(?a <=? ?b)%float] => destruct (a <=? b)%float; simpl
      end;
    reflexivity.
Qed.

(** The examples of section 8 of the specification. *)
Example assess_all_null :
  Financials._assess_financial_health None None None None = None.
Proof. reflexivity. Qed.

Example assess_strong :
  Financials._assess_financial_health (Some 10%float) (Some 10%float)
    (Some 2%float) (Some 0.5%float) = Some "Strong".
Proof. reflexivity. Qed.

Example assess_concerning :
  Financials._assess_financial_health (Some (-10)%float) (Some (-10)%float)
    (Some 0.5%float) (Some 3%float) = Some "Concerning".
Proof. reflexivity. Qed.

(** An infinite ratio is the only input: no factor is usable. *)
Example assess_no_usable_factor :
  Financials._assess_financial_health None None (Some infinity) None = None.
Proof. reflexivity. Qed.

(** ** Standalone classifiers *)

(** C4, as the specification states it, fails: the profitability and
    liquidity labels carry a suffix. *)
Lemma classifier_labels_counterexample :
  (0x1.999999999999ap-3 <=? 0.25)%float = true
  /\ Metrics._assess_profitability (Some 0.25%float) <> Some "High"
  /\ (2 <=? 2.5)%float = true
  /\ Metrics._assess_liquidity (Some 2.5%float) <> Some "Strong".
Proof. repeat apply conj; try reflexivity; discriminate. Qed.

(** C4, amended. Each classifier returns null on null input, and on a
    metric [x]: price/earnings ratio < 15 gives "Potentially Undervalued",
    in [15, 25] "Fairly Valued", > 25 "Potentially Overvalued"; net margin
    ≥ 0.20 gives "High Profitability", in [0.10, 0.20) "Moderate
    Profitability", in [0, 0.10) "Low Profitability", < 0 "Unprofitable";
    current ratio ≥ 2.0 gives "Strong Liquidity", in [1.0, 2.0) "Adequate
    Liquidity", < 1.0 "Weak Liquidity". *)
Theorem classifier_labels (x : float) :
  Metrics._assess_valuation None = None
  /\ Metrics._assess_profitability None = None
  /\ Metrics._assess_liquidity None = None
  /\ ((x <? 15)%float = true ->
      Metrics._assess_valuation (Some x) = Some "Potentially Undervalued")
  /\ ((15 <=? x)%float = true -> (x <=? 25)%float = true ->
      Metrics._assess_valuation (Some x) = Some "Fairly Valued")
  /\ ((25 <? x)%float = true ->
      Metrics._assess_valuation (Some x) = Some "Potentially Overvalued")
  /\ ((0x1.999999999999ap-3 <=? x)%float = true ->
      Metrics._assess_profitability (Some x) = Some "High Profitability")
  /\ ((0x1.999999999999ap-4 <=? x)%float = true ->
      (x <? 0x1.999999999999ap-3)%float = true ->
      Metrics._assess_profitability (Some x) = Some "Moderate Profitability")
  /\ ((0 <=? x)%float = true -> (x <? 0x1.999999999999ap-4)%float = true ->
      Metrics._assess_profitability (Some x) = Some "Low Profitability")
  /\ ((x <? 0)%float = true ->
      Metrics._assess_profitability (Some x) = Some "Unprofitable")
  /\ ((2 <=? x)%float = true ->
      Metrics._assess_liquidity (Some x) = Some "Strong Liquidity")
  /\ ((1 <=? x)%float = true -> (x <? 2)%float = true ->
      Metrics._assess_liquidity (Some x) = Some "Adequate Liquidity")
  /\ ((x <? 1)%float = true ->
      Metrics._assess_liquidity (Some x) = Some "Weak Liquidity").
Proof.
  unfold Metrics._assess_valuation, Metrics._assess_profitability,
    Metrics._assess_liquidity.
  repeat apply conj; try reflexivity.
  - intros ->. reflexivity.
  - intros H1 H2.
    assert ((x <? 15)%float = false) as -> by float_order.
    rewrite H1, H2. reflexivity.
  - intros H.
    assert ((x <? 15)%float = false /\ (x <=? 25)%float = false)
      as [-> ->] by float_order.
    rewrite H, andb_false_r. reflexivity.
  - intros ->. reflexivity.
  - intros H1 H2.
    assert ((0x1.999999999999ap-3 <=? x)%float = false) as ->
        by float_order.
    rewrite H1, H2. reflexivity.
  - intros H1 H2.
    assert ((0x1.999999999999ap-3 <=? x)%float = false
            /\ (0x1.999999999999ap-4 <=? x)%float = false)
      as [-> ->] by float_order.
    rewrite H1, H2. reflexivity.
  - intros H.
    assert ((0x1.999999999999ap-3 <=? x)%float = false
            /\ (0x1.999999999999ap-4 <=? x)%float = false
            /\ (0 <=? x)%float = false)
      as (-> & -> & ->) by float_order.
    rewrite H, andb_false_r. reflexivity.
  - intros ->. reflexivity.
  - intros H1 H2.
    assert ((2 <=? x)%float = false) as -> by float_order.
    rewrite H1, H2. reflexivity.
  - intros H.
    assert ((2 <=? x)%float = false /\ (1 <=? x)%float = false)
      as [-> ->] by float_order.
    rewrite H. reflexivity.
Qed.

Lemma classifier_labels_witness :
  Metrics._assess_valuation (Some 10%float) = Some "Potentially Undervalued"
  /\ Metrics._assess_valuation (Some 25%float) = Some "Fairly Valued"
  /\ Metrics._assess_valuation (Some 30%float) = Some "Potentially Overvalued"
  /\ Metrics._assess_profitability (Some 0.25%float)
     = Some "High Profitability"
  /\ Metrics._assess_profitability (Some 0.125%float)
     = Some "Moderate Profitability"
  /\ Metrics._assess_profitability (Some 0%float) = Some "Low Profitability"
  /\ Metrics._assess_profitability (Some (-1)%float) = Some "Unprofitable"
  /\ Metrics._assess_liquidity (Some 2%float) = Some "Strong Liquidity"
  /\ Metrics._assess_liquidity (Some 1%float) = Some "Adequate Liquidity"
  /\ Metrics._assess_liquidity (Some 0.5%float) = Some "Weak Liquidity".
Proof.
  repeat apply conj.
  - destruct (classifier_labels 10) as (_ & _ & _ & H & _).
    apply H; reflexivity.
  - destruct (classifier_labels 25) as (_ & _ & _ & _ & H & _).
    apply H; reflexivity.
  - destruct (classifier_labels 30) as (_ & _ & _ & _ & _ & H & _).
    apply H; reflexivity.
  - destruct (classifier_labels 0.25) as (_ & _ & _ & _ & _ & _ & H & _).
    apply H; reflexivity.
  - destruct (classifier_labels 0.125)
      as (_ & _ & _ & _ & _ & _ & _ & H & _).
    apply H; reflexivity.
  - destruct (classifier_labels 0)
      as (_ & _ & _ & _ & _ & _ & _ & _ & H & _).
    apply H; reflexivity.
  - destruct (classifier_labels (-1))
      as (_ & _ & _ & _ & _ & _ & _ & _ & _ & H & _).
    apply H; reflexivity.
  - destruct (classifier_labels 2)
      as (_ & _ & _ & _ & _ & _ & _ & _ & _ & _ & H & _).
    apply H; reflexivity.
  - destruct (classifier_labels 1)
      as (_ & _ & _ & _ & _ & _ & _ & _ & _ & _ & _ & H & _).
    apply H; reflexivity.
  - destruct (classifier_labels 0.5)
      as (_ & _ & _ & _ & _ & _ & _ & _ & _ & _ & _ & _ & H).
    apply H; reflexivity.
Defined.

(** ** RatioEngine *)

Lemma ne0_eq0 (x : float) : Py.ne0 x = negb (Py.eq0 x).
Proof. reflexivity. Qed.

(** The ratio set an iteration attaches to its output filing is the one it
    computed, or nothing when no ratio in it is a valid value. *)
Lemma loop_body_ratios filing previous_year_values out previous_year_values' :
  Financials.loop_body filing previous_year_values
  = Ok (out, previous_year_values') ->
  exists r,
    FinancialFilingData.report filing = Some r
    /\ FinancialFilingOut.calculated_ratios out
       = if existsb Financials.valid_ratio
              (CalculatedRatiosOut.model_dump_values (filing_ratios r))
         then Some (filing_ratios r) else None.
Proof.
  unfold Financials.loop_body.
  destruct (FinancialFilingData.report filing) as [r|]; [|discriminate].
  intros [= <- _]. exists r. split; reflexivity.
Qed.

(** C1, as the specification states it, fails: a filing with a gross profit
    of 50 and a revenue of 0 has a null gross margin, not positive
    infinity. *)
Lemma filing_ratios_counterexample :
  let r :=
    FinancialReportDetails.mk None
      (Some [ReportItem.mk "us-gaap_Revenues" "usd" "Revenues" (Some 0%float);
             ReportItem.mk "us-gaap_GrossProfit" "usd" "Gross profit"
               (Some 50%float)])
      None in
  let c := Financials.current_of_report r in
  Financials.current_gross_profit c = Some 50%float
  /\ Financials.current_revenue c = Some 0%float
  /\ Spec.ratio (Some 50%float) (Some 0%float) 4 = Some infinity
  /\ CalculatedRatiosOut.gross_margin (filing_ratios r) = None
  /\ CalculatedRatiosOut.gross_margin (filing_ratios r)
     <> Spec.ratio (Financials.current_gross_profit c)
          (Financials.current_revenue c) 4.
Proof. repeat apply conj; try reflexivity. discriminate. Qed.

(** C1, amended. For every filing processed by the financial-statements
    endpoint: each of the three margins (gross, operating, net profit) is
    null if either operand is null or the denominator is zero, and
    otherwise numerator/denominator rounded to 4 decimal places; current
    ratio and debt-to-equity are null if either operand is null, positive
    infinity if the denominator is zero and the numerator is non-null,
    regardless of the numerator's sign, and otherwise
    numerator/denominator rounded to 2 decimal places. *)
Theorem filing_ratios_cases (r : FinancialReportDetails.t) :
  let c := Financials.current_of_report r in
  let ratios := filing_ratios r in
  CalculatedRatiosOut.gross_margin ratios
  = Spec.margin (Financials.current_gross_profit c)
      (Financials.current_revenue c) 4
  /\ CalculatedRatiosOut.operating_margin ratios
     = Spec.margin (Financials.current_operating_income c)
         (Financials.current_revenue c) 4
  /\ CalculatedRatiosOut.net_profit_margin ratios
     = Spec.margin (Financials.current_net_income_ic c)
         (Financials.current_revenue c) 4
  /\ CalculatedRatiosOut.current_ratio ratios
     = Spec.ratio (Financials.current_total_current_assets c)
         (Financials.current_total_current_liabilities c) 2
  /\ CalculatedRatiosOut.debt_to_equity_ratio ratios
     = Spec.ratio (Financials.current_total_liabilities c)
         (Financials.current_total_equity c) 2.
Proof.
  intros c ratios. subst ratios. unfold filing_ratios. fold c.
  generalize c. clear c r. intros c.
  unfold Financials.calculate_ratios, Spec.margin, Spec.ratio; simpl.
  repeat apply conj;
    repeat match goal with
      | |- context [match ?o with Some _ => _ | None => _ end] =>
          is_var o; destruct o
      | |- context [match ?f c with Some _ => _ | None => _ end] =>
          destruct (f c)
      end;
    try reflexivity;
    rewrite ne0_eq0; unfold Py.eq0;
    match goal with
    | |- context [(?d =? 0)%float] => destruct (d =? 0)%float eqn:E
    end;
    simpl; rewrite ?E; reflexivity.
Qed.

(** Section 8: current assets of 100 over zero current liabilities give
    positive infinity, and so do negative assets, the sign of the numerator
    not being considered; a gross profit of 50 on a revenue of 200 gives a
    margin of 0.25. *)
Example filing_ratios_sample :
  let report assets :=
    FinancialReportDetails.mk
      (Some [Sample.item "us-gaap_AssetsCurrent" (Some assets);
             Sample.item "us-gaap_LiabilitiesCurrent" (Some 0%float)])
      (Some [Sample.item "us-gaap_GrossProfit" (Some 50%float);
             Sample.item "us-gaap_Revenues" (Some 200%float)])
      None in
  CalculatedRatiosOut.current_ratio (filing_ratios (report 100%float))
  = Some infinity
  /\ CalculatedRatiosOut.current_ratio (filing_ratios (report (-100)%float))
     = Some infinity
  /\ CalculatedRatiosOut.gross_margin (filing_ratios (report 100%float))
     = Some 0.25%float
  /\ CalculatedRatiosOut.debt_to_equity_ratio
       (filing_ratios (report 100%float)) = None.
Proof. repeat apply conj; reflexivity. Qed.

(** ** FilingSelector *)

(** The order on keys: [String.leb] is a total preorder with the empty
    string at the bottom. *)
Lemma string_compare_not_Gt_trans (a b c : string) :
  String.compare a b <> Gt -> String.compare b c <> Gt ->
  String.compare a c <> Gt.
Proof.
  revert b c. induction a as [|x a IH]; intros [|y b] [|z c]; simpl;
    try congruence.
  unfold Ascii.compare.
  destruct (N.compare_spec (Ascii.N_of_ascii x) (Ascii.N_of_ascii y))
      as [Exy|Exy|Exy],
    (N.compare_spec (Ascii.N_of_ascii y) (Ascii.N_of_ascii z))
      as [Eyz|Eyz|Eyz],
    (N.compare_spec (Ascii.N_of_ascii x) (Ascii.N_of_ascii z))
      as [Exz|Exz|Exz];
    try congruence; try lia.
  apply IH.
Qed.

Lemma string_leb_trans (a b c : string) :
  String.leb a b = true -> String.leb b c = true -> String.leb a c = true.
Proof.
  unfold String.leb. intros Hab Hbc.
  pose proof (string_compare_not_Gt_trans a b c) as H.
  destruct (String.compare a b), (String.compare b c), (String.compare a c);
    try discriminate; try reflexivity; exfalso; apply H; congruence.
Qed.

Lemma string_leb_refl (a : string) : String.leb a a = true.
Proof. destruct (String.leb_total a a); assumption. Qed.

Lemma string_leb_empty (s : string) : String.leb "" s = true.
Proof. destruct s; reflexivity. Qed.

Lemma string_leb_empty_inv (s : string) : String.leb s "" = true -> s = "".
Proof. destruct s; [reflexivity | discriminate]. Qed.

Section SortedFacts.
Context {A : Type} (key : A -> string).

Lemma insert_asc_perm (x : A) (l : list A) :
  Permutation (Py.insert_asc key x l) (x :: l).
Proof.
  induction l as [|y ys IH]; simpl; [reflexivity|].
  destruct (String.leb (key x) (key y)); [reflexivity|].
  rewrite IH. apply perm_swap.
Qed.

Lemma sort_asc_perm (l : list A) : Permutation (Py.sort_asc key l) l.
Proof.
  induction l as [|x xs IH]; simpl; [reflexivity|].
  rewrite insert_asc_perm, IH. reflexivity.
Qed.

Lemma insert_asc_sorted (x : A) (l : list A) :
  StronglySorted (Py.key_le key) l ->
  StronglySorted (Py.key_le key) (Py.insert_asc key x l).
Proof.
  induction 1 as [|y ys Hs IH Hall]; simpl.
  - repeat constructor.
  - destruct (String.leb (key x) (key y)) eqn:E.
    + constructor; [constructor; assumption|].
      constructor; [exact E|].
      eapply List.Forall_impl; [|exact Hall].
      intros z Hz. exact (string_leb_trans _ _ _ E Hz).
    + constructor; [exact IH|].
      rewrite (insert_asc_perm x ys). constructor; [|exact Hall].
      destruct (String.leb_total (key x) (key y)) as [H|H];
        [congruence | exact H].
Qed.

Lemma sort_asc_sorted (l : list A) :
  StronglySorted (Py.key_le key) (Py.sort_asc key l).
Proof.
  induction l as [|x xs IH]; simpl; [constructor|].
  apply insert_asc_sorted, IH.
Qed.

(** Insertion never moves [x] past an element with the same key. *)
Lemma insert_asc_stable (k : string) (x : A) (l : list A) :
  List.filter (fun a => String.eqb (key a) k) (Py.insert_asc key x l)
  = List.filter (fun a => String.eqb (key a) k) (x :: l).
Proof.
  induction l as [|y ys IH]; [reflexivity|].
  simpl Py.insert_asc.
  destruct (String.leb (key x) (key y)) eqn:E; [reflexivity|].
  simpl in *. rewrite IH.
  destruct (String.eqb_spec (key x) k) as [Hx|Hx],
    (String.eqb_spec (key y) k) as [Hy|Hy]; try reflexivity.
  rewrite Hx, Hy, string_leb_refl in E. discriminate.
Qed.

Lemma sort_asc_stable (k : string) (l : list A) :
  List.filter (fun a => String.eqb (key a) k) (Py.sort_asc key l)
  = List.filter (fun a => String.eqb (key a) k) l.
Proof.
  induction l as [|x xs IH]; [reflexivity|].
  simpl Py.sort_asc. rewrite insert_asc_stable. simpl. rewrite IH.
  reflexivity.
Qed.

Lemma filter_rev_comm (p : A -> bool) (l : list A) :
  List.filter p (rev l) = rev (List.filter p l).
Proof.
  induction l as [|x xs IH]; [reflexivity|].
  simpl. rewrite List.filter_app, IH. simpl.
  destruct (p x); simpl; [reflexivity | apply app_nil_r].
Qed.

Lemma StronglySorted_snoc (R : A -> A -> Prop) (l : list A) (x : A) :
  StronglySorted R l -> Forall (fun y => R y x) l ->
  StronglySorted R (l ++ [x]).
Proof.
  induction 1 as [|y ys Hs IH Hall]; intros HF; simpl.
  - repeat constructor.
  - inversion HF; subst. constructor; [apply IH; assumption|].
    apply Forall_app. split; [assumption | repeat constructor; assumption].
Qed.

Lemma StronglySorted_rev_flip (R : A -> A -> Prop) (l : list A) :
  StronglySorted R l -> StronglySorted (fun a b => R b a) (rev l).
Proof.
  induction 1 as [|y ys Hs IH Hall]; simpl; [constructor|].
  apply StronglySorted_snoc; [exact IH|].
  apply Forall_rev. exact Hall.
Qed.

(** [sorted(..., reverse=True)]: a permutation of its input, in descending
    key order, with equal keys in their input order. *)
Lemma sorted_reverse_perm (l : list A) : Permutation (Py.sorted key true l) l.
Proof.
  unfold Py.sorted.
  rewrite <- Permutation_rev, sort_asc_perm, <- Permutation_rev.
  reflexivity.
Qed.

Lemma sorted_reverse_descending (l : list A) :
  StronglySorted (fun a b => Py.key_le key b a) (Py.sorted key true l).
Proof.
  unfold Py.sorted.
  apply (StronglySorted_rev_flip (Py.key_le key)), sort_asc_sorted.
Qed.

Lemma sorted_reverse_stable (k : string) (l : list A) :
  List.filter (fun a => String.eqb (key a) k) (Py.sorted key true l)
  = List.filter (fun a => String.eqb (key a) k) l.
Proof.
  unfold Py.sorted.
  rewrite filter_rev_comm, sort_asc_stable, filter_rev_comm.
  apply rev_involutive.
Qed.

End SortedFacts.

Lemma StronglySorted_after {A} (R : A -> A -> Prop) (l1 l2 : list A) (x : A) :
  StronglySorted R (l1 ++ x :: l2) -> Forall (R x) l2.
Proof.
  induction l1 as [|y ys IH]; simpl; intros H; inversion H; subst; auto.
Qed.

Lemma is_annual_10K_iff (f : FinancialFilingData.t) :
  Financials.is_annual_10K f = true
  <-> FinancialFilingData.quarter f = 0
      /\ FinancialFilingData.form f = "10-K"
      /\ FinancialFilingData.report f <> None.
Proof.
  unfold Financials.is_annual_10K.
  rewrite !andb_true_iff, Z.eqb_eq, String.eqb_eq.
  destruct (FinancialFilingData.report f); simpl; intuition congruence.
Qed.

Lemma endDate_key_cases (f : FinancialFilingData.t) :
  match FinancialFilingData.endDate f with
  | Some d => Financials.endDate_key f = d
  | None => Financials.endDate_key f = ""
  end.
Proof.
  unfold Financials.endDate_key.
  destruct (FinancialFilingData.endDate f) as [[|c d]|]; reflexivity.
Qed.

Lemma annual_filings_In (data : list FinancialFilingData.t)
    (f : FinancialFilingData.t) :
  In f (Financials.annual_filings data)
  <-> In f data /\ FinancialFilingData.quarter f = 0
      /\ FinancialFilingData.form f = "10-K"
      /\ FinancialFilingData.report f <> None.
Proof.
  unfold Financials.annual_filings.
  assert (Hperm := sorted_reverse_perm Financials.endDate_key
                     (List.filter Financials.is_annual_10K data)).
  split.
  - intros Hin. apply (Permutation_in _ Hperm) in Hin.
    apply List.filter_In in Hin as [Hin Hf].
    apply is_annual_10K_iff in Hf. tauto.
  - intros (Hin & Hf). apply (Permutation_in _ (Permutation_sym Hperm)).
    apply List.filter_In. split; [exact Hin|].
    apply is_annual_10K_iff. exact Hf.
Qed.

(** C5. The annual-filing selection keeps exactly the records with
    quarter == 0, form == "10-K" and a present statement payload, sorts the
    kept records by end date descending using string comparison, places
    records with a missing end date last (their key is the empty string,
    the earliest), and preserves the upstream relative order of records
    whose end dates are equal. *)
Theorem annual_filings_selection (data : list FinancialFilingData.t) :
  let kept := List.filter Financials.is_annual_10K data in
  let out := Financials.annual_filings data in
  (forall f, In f out <->
             In f data /\ FinancialFilingData.quarter f = 0
             /\ FinancialFilingData.form f = "10-K"
             /\ FinancialFilingData.report f <> None)
  /\ Permutation out kept
  /\ StronglySorted
       (fun a b => String.leb (Financials.endDate_key b)
                     (Financials.endDate_key a) = true) out
  /\ (forall f d, FinancialFilingData.endDate f = Some d ->
                  Financials.endDate_key f = d)
  /\ (forall f, FinancialFilingData.endDate f = None ->
                Financials.endDate_key f = ""
                /\ forall g, String.leb (Financials.endDate_key f)
                               (Financials.endDate_key g) = true)
  /\ (forall before f after,
        out = (before ++ f :: after)%list ->
        FinancialFilingData.endDate f = None ->
        Forall (fun g => Financials.endDate_key g = "") after)
  /\ (forall d,
        List.filter (fun f => String.eqb (Financials.endDate_key f) d) out
        = List.filter (fun f => String.eqb (Financials.endDate_key f) d) kept).
Proof.
  intros kept out.
  assert (Hperm : Permutation out kept) by apply sorted_reverse_perm.
  assert (Hsorted : StronglySorted
            (fun a b => String.leb (Financials.endDate_key b)
                          (Financials.endDate_key a) = true) out)
    by apply sorted_reverse_descending.
  repeat apply conj.
  - intros f. apply annual_filings_In.
  - exact Hperm.
  - exact Hsorted.
  - intros f d Hd. pose proof (endDate_key_cases f) as H.
    rewrite Hd in H. exact H.
  - intros f Hf. pose proof (endDate_key_cases f) as Hk. rewrite Hf in Hk.
    split; [exact Hk|]. intros g. rewrite Hk. apply string_leb_empty.
  - intros before f after Hout Hf.
    pose proof (endDate_key_cases f) as Hk. rewrite Hf in Hk.
    rewrite Hout in Hsorted. apply StronglySorted_after in Hsorted.
    eapply List.Forall_impl; [|exact Hsorted].
    intros g Hg. simpl in Hg. rewrite Hk in Hg.
    apply string_leb_empty_inv. exact Hg.
  - intros d. apply sorted_reverse_stable.
Qed.

Lemma annual_filings_selection_witness :
  Financials.annual_filings Sample.data
  = [Sample.fy2022; Sample.fy2021_a; Sample.fy2021_b;
     Sample.undated_a; Sample.undated_b]
  /\ ~ In Sample.quarterly (Financials.annual_filings Sample.data)
  /\ Forall (fun g => Financials.endDate_key g = "") [Sample.undated_b].
Proof.
  destruct (annual_filings_selection Sample.data)
    as (Hin & _ & _ & _ & _ & Hlast & _).
  repeat apply conj.
  - reflexivity.
  - intros H. apply Hin in H as (_ & H & _). discriminate H.
  - apply (Hlast [Sample.fy2022; Sample.fy2021_a; Sample.fy2021_b]
             Sample.undated_a); reflexivity.
Defined.

(** ** ConceptResolver *)

Lemma find_concept_loop_first_tagged (items : list ReportItem.t)
    (concept : string) :
  Financials.find_concept_loop items concept
  = option_map Spec.normalise (Spec.first_tagged items concept).
Proof.
  unfold Spec.first_tagged.
  induction items as [|item rest IH]; simpl; [reflexivity|].
  destruct (String.eqb (ReportItem.concept item) concept); [|exact IH].
  unfold Spec.normalise. simpl.
  destruct (ReportItem.value item); reflexivity.
Qed.

Lemma find_concept_value_first_tagged (items : list ReportItem.t)
    (concept : string) :
  Financials.find_concept_value (Some items) concept
  = option_map Spec.normalise (Spec.first_tagged items concept).
Proof.
  unfold Financials.find_concept_value.
  destruct items as [|item rest]; [reflexivity|].
  apply find_concept_loop_first_tagged.
Qed.

Lemma find_concept_value_resolve (items : option (list ReportItem.t))
    (concept : string) :
  Financials.find_concept_value items concept = Spec.resolve items [concept].
Proof.
  destruct items as [l|]; [|reflexivity].
  rewrite find_concept_value_first_tagged. simpl.
  destruct (Spec.first_tagged l concept); reflexivity.
Qed.

(** C6. Concept resolution returns the first item whose concept matches a
    candidate, trying candidates in priority order: every slot is resolved
    from its single candidate, and revenue from "us-gaap_Revenues" then
    "us-gaap_SalesRevenueNet", so that the former wins even when the latter
    appears earlier in document order.  It returns null when the item list
    is absent or nothing matches, and a matched item whose value is not
    numeric yields a result with a null value rather than an error. *)
Theorem concept_resolution (items : option (list ReportItem.t)) :
  (forall concept,
     Financials.find_concept_value items concept
     = Spec.resolve items [concept])
  /\ Financials.resolve_revenue items
     = Spec.resolve items ["us-gaap_Revenues"; "us-gaap_SalesRevenueNet"]
  /\ (forall l item,
        items = Some l ->
        Spec.first_tagged l "us-gaap_Revenues" = Some item ->
        Financials.resolve_revenue items = Some (Spec.normalise item))
  /\ (forall concept,
        Financials.find_concept_value None concept = None)
  /\ (forall l concept,
        items = Some l ->
        Forall (fun item => ReportItem.concept item <> concept) l ->
        Financials.find_concept_value items concept = None)
  /\ (forall l concept item,
        items = Some l ->
        Spec.first_tagged l concept = Some item ->
        ReportItem.value item = None ->
        exists out,
          Financials.find_concept_value items concept = Some out
          /\ FinancialItemOut.value out = None).
Proof.
  assert (Hrev : Financials.resolve_revenue items
     = Spec.resolve items ["us-gaap_Revenues"; "us-gaap_SalesRevenueNet"]).
  { unfold Financials.resolve_revenue.
    destruct items as [l|]; [|reflexivity].
    rewrite !find_concept_value_first_tagged. simpl.
    destruct (Spec.first_tagged l "us-gaap_Revenues"); simpl; [reflexivity|].
    destruct (Spec.first_tagged l "us-gaap_SalesRevenueNet"); reflexivity. }
  repeat apply conj.
  - intros concept. apply find_concept_value_resolve.
  - exact Hrev.
  - intros l item -> Hitem. rewrite Hrev. simpl. rewrite Hitem. reflexivity.
  - reflexivity.
  - intros l concept -> Hnone. clear Hrev.
    rewrite find_concept_value_first_tagged.
    unfold Spec.first_tagged.
    induction Hnone as [|item rest Hne _ IH]; [reflexivity|].
    simpl. apply String.eqb_neq in Hne. rewrite Hne. exact IH.
  - intros l concept item -> Hitem Hval.
    exists (Spec.normalise item). split.
    + rewrite find_concept_value_first_tagged, Hitem. reflexivity.
    + exact Hval.
Qed.

Lemma concept_resolution_witness :
  let legacy := Sample.item "us-gaap_SalesRevenueNet" (Some 90%float) in
  let preferred := Sample.item "us-gaap_Revenues" None in
  let items := Some [legacy; preferred] in
  Financials.resolve_revenue items = Some (Spec.normalise preferred)
  /\ Financials.find_concept_value items "us-gaap_GrossProfit" = None
  /\ exists out,
       Financials.find_concept_value items "us-gaap_Revenues" = Some out
       /\ FinancialItemOut.value out = None.
Proof.
  intros legacy preferred items.
  destruct (concept_resolution items) as (_ & _ & Hpref & _ & Hnone & Hnull).
  repeat apply conj.
  - apply (Hpref [legacy; preferred]); reflexivity.
  - apply (Hnone [legacy; preferred]); [reflexivity|].
    repeat constructor; discriminate.
  - apply (Hnull [legacy; preferred] "us-gaap_Revenues" preferred);
      reflexivity.
Defined.

(** ** ReportAssembler *)


(** One iteration: the growth fields are computed against the carried
    state, which is then overwritten with the filing's own values. *)
Lemma loop_body_step (f : FinancialFilingData.t)
    (previous_year_values : gmap string (option float)) :
  FinancialFilingData.report f <> None ->
  exists out previous_year_values',
    Financials.loop_body f previous_year_values
    = Ok (out, previous_year_values')
    /\ FinancialFilingOut.access_number out
       = FinancialFilingData.accessNumber f
    /\ growth_fields out
       = (Financials._calculate_growth_rate (filing_revenue f)
            (Financials.get_previous previous_year_values "revenue"),
          Financials._calculate_growth_rate (filing_net_income f)
            (Financials.get_previous previous_year_values "net_income_ic"))
    /\ Financials.get_previous previous_year_values' "revenue"
       = filing_revenue f
    /\ Financials.get_previous previous_year_values' "net_income_ic"
       = filing_net_income f.
Proof.
  unfold Financials.loop_body, filing_revenue, filing_net_income.
  destruct (FinancialFilingData.report f) as [r|]; [intros _|congruence].
  eexists _, _. split; [reflexivity|].
  unfold Financials.get_previous, growth_fields. simpl.
  repeat apply conj; try reflexivity.
  - rewrite lookup_insert_ne by discriminate.
    rewrite lookup_insert_eq. reflexivity.
  - rewrite lookup_insert_eq. reflexivity.
Qed.

Lemma filings_loop_growth_pairs (filings : list FinancialFilingData.t) :
  Forall (fun f => FinancialFilingData.report f <> None) filings ->
  forall filings_out previous_year_values,
  exists outs,
    Financials.filings_loop filings filings_out previous_year_values
    = Ok (filings_out ++ outs)%list
    /\ map FinancialFilingOut.access_number outs
       = map FinancialFilingData.accessNumber filings
    /\ map growth_fields outs
       = growth_pairs filings
           (Financials.get_previous previous_year_values "revenue")
           (Financials.get_previous previous_year_values "net_income_ic").
Proof.
  induction 1 as [|f older Hf _ IH]; intros acc prev; simpl.
  - exists []. rewrite app_nil_r. repeat apply conj; reflexivity.
  - destruct (loop_body_step f prev Hf)
      as (out & prev' & -> & Ha & Hg & Hr & Hn).
    destruct (IH (acc ++ [out])%list prev') as (outs & -> & Hacc & Hmap).
    exists (out :: outs). rewrite <- app_assoc.
    repeat apply conj; [reflexivity | |].
    + simpl. rewrite Ha, Hacc. reflexivity.
    + simpl. rewrite Hg, Hmap, Hr, Hn. reflexivity.
Qed.


Lemma annual_filings_have_reports (data : list FinancialFilingData.t) :
  Forall (fun f => FinancialFilingData.report f <> None)
    (Financials.annual_filings data).
Proof.
  apply List.Forall_forall. intros f Hin.
  apply annual_filings_In in Hin. tauto.
Qed.



(** The handler returns the output of the loop, under the requested
    symbol, whenever a 10-K filing passes the filter. *)
Lemma summarise_filings (symbol : string) (d : FinnhubFinancialsReport.t)
    (report_out : FinancialReportsOut.t) :
  Financials.summarise symbol (Some d) = Ok report_out ->
  Financials.filings_loop
    (Financials.annual_filings (FinnhubFinancialsReport.data d)) [] ∅
  = Ok (FinancialReportsOut.filings report_out)
  /\ FinancialReportsOut.symbol report_out = symbol.
Proof.
  unfold Financials.summarise.
  destruct (negb _); [discriminate|].
  destruct (negb _); [discriminate|].
  destruct (Financials.filings_loop _ _ _); [|discriminate].
  intros [= <-]. split; reflexivity.
Qed.

Example summarise_sample :
  match Financials.summarise "ACME"
          (Some (FinnhubFinancialsReport.mk "0000001" Sample.data "ACME")) with
  | Ok report_out =>
      map growth_fields (FinancialReportsOut.filings report_out)
      = [(None, None);
         (Some (-20)%float, Some (-300)%float);
         (Some 0%float, Some 100%float);
         (Some (-20)%float, Some (-100)%float);
         (Some (-100)%float, Some 0%float)]
  | Raise _ => False
  end.
Proof. vm_compute. reflexivity. Qed.

(** ** UpstreamCache *)

Lemma run_cached_fetch (f : Fetch) :
  run f = Services.cached_fetch (key_of f) (url_of f) (model_of f).
Proof. destruct f; reflexivity. Qed.

Ltac run_monad :=
  unfold Services.cached_fetch, mbind, M_bind, mret, M_ret,
    Services.cache_get, Services.datetime_now, try,
    Services._fetch_from_finnhub, Services.cache_set, raise; simpl.

(** A live entry is returned as it is: no request, no change to the
    cache. *)
Lemma cached_fetch_hit key url response_model (w : World) entry :
  _finnhub_cache w !! key = Some entry ->
  live w entry ->
  exists w',
    Services.cached_fetch key url response_model w
    = (Ok (Some (CacheEntry.data entry)), w')
    /\ requests w' = requests w
    /\ _finnhub_cache w' = _finnhub_cache w.
Proof.
  unfold live. intros Hentry Hlive. run_monad. rewrite Hentry.
  unfold Services.timedelta, Services.CACHE_EXPIRATION_SECONDS.
  destruct (Z.ltb_spec (clock w (ticks w) - CacheEntry.timestamp entry)
              (300 * 1000000)); [|lia].
  eexists. repeat apply conj; reflexivity.
Qed.

(** Without a live entry the provider is asked; the entry is written only
    when the fetch succeeds. *)
Lemma cached_fetch_miss key url response_model (w : World) :
  (forall entry, _finnhub_cache w !! key = Some entry -> ~ live w entry) ->
  exists result w',
    Services.cached_fetch key url response_model w = (result, w')
    /\ requests w' = url :: requests w
    /\ match upstream w url with
       | Response status_code text =>
           if Services.is_success status_code then
             match decode w response_model text with
             | Some data =>
                 result = Ok (Some data)
                 /\ exists n : nat,
                      (ticks w <= n)%nat /\ ticks w' = S n
                      /\ _finnhub_cache w'
                         = <[key := CacheEntry.mk data (clock w n)]>
                             (_finnhub_cache w)
             | None =>
                 result = Raise ValidationError
                 /\ _finnhub_cache w' = _finnhub_cache w
             end
           else
             (result = Ok None
              \/ result = Raise (HTTPStatusError status_code text))
             /\ _finnhub_cache w' = _finnhub_cache w
       | NoReply =>
           result = Raise RequestError
           /\ _finnhub_cache w' = _finnhub_cache w
       end.
Proof.
  unfold live. intros Hstale. run_monad.
  unfold Services.timedelta, Services.CACHE_EXPIRATION_SECONDS.
  destruct (_finnhub_cache w !! key) as [entry|] eqn:Hentry.
  - destruct (Z.ltb_spec (clock w (ticks w) - CacheEntry.timestamp entry)
                (300 * 1000000)) as [Hlt|_];
      [exfalso; exact (Hstale entry eq_refl Hlt)|].
    simpl.
    destruct (upstream w url) as [|status_code text]; simpl.
    + eexists _, _. repeat apply conj; reflexivity.
    + destruct (Services.is_success status_code); simpl.
      * destruct (decode w response_model text) as [data|]; simpl.
        -- eexists _, _. repeat apply conj; try reflexivity.
           exists (S (ticks w)). repeat apply conj; try reflexivity; lia.
        -- eexists _, _. repeat apply conj; reflexivity.
      * destruct ((status_code =? 400) && Py.str_in "Invalid symbol" text);
          eexists _, _; repeat apply conj; try reflexivity; auto.
  - simpl.
    destruct (upstream w url) as [|status_code text]; simpl.
    + eexists _, _. repeat apply conj; reflexivity.
    + destruct (Services.is_success status_code); simpl.
      * destruct (decode w response_model text) as [data|]; simpl.
        -- eexists _, _. repeat apply conj; try reflexivity.
           exists (ticks w). repeat apply conj; try reflexivity; lia.
        -- eexists _, _. repeat apply conj; reflexivity.
      * destruct ((status_code =? 400) && Py.str_in "Invalid symbol" text);
          eexists _, _; repeat apply conj; try reflexivity; auto.
Qed.

(** C8. For every service fetch (profile, basic financials, reported
    financials): if a cache entry for the request's key exists with age
    strictly less than 300 seconds, its stored value is returned and the
    fetch is not invoked; otherwise the fetch is invoked and on success its
    result is stored under the key with the current timestamp; and when
    the fetch fails, no cache entry is written, leaving the cache
    unchanged. *)
Theorem cache_get_or_fetch (f : Fetch) (w : World) :
  (forall entry,
     _finnhub_cache w !! key_of f = Some entry ->
     live w entry ->
     exists w',
       run f w = (Ok (Some (CacheEntry.data entry)), w')
       /\ requests w' = requests w
       /\ _finnhub_cache w' = _finnhub_cache w)
  /\ ((forall entry,
         _finnhub_cache w !! key_of f = Some entry -> ~ live w entry) ->
      exists result w',
        run f w = (result, w')
        /\ requests w' = url_of f :: requests w
        /\ match fetched w f with
           | Some data =>
               result = Ok (Some data)
               /\ exists n : nat,
                    (ticks w <= n)%nat /\ ticks w' = S n
                    /\ _finnhub_cache w'
                       = <[key_of f := CacheEntry.mk data (clock w n)]>
                           (_finnhub_cache w)
           | None =>
               (forall data, result <> Ok (Some data))
               /\ _finnhub_cache w' = _finnhub_cache w
           end).
Proof.
  rewrite run_cached_fetch. split.
  - intros entry Hentry Hlive.
    exact (cached_fetch_hit _ _ _ w entry Hentry Hlive).
  - intros Hstale.
    destruct (cached_fetch_miss (key_of f) (url_of f) (model_of f) w Hstale)
      as (result & w' & Hrun & Hreq & Hcases).
    exists result, w'. repeat apply conj; [exact Hrun | exact Hreq |].
    unfold fetched.
    destruct (upstream w (url_of f)) as [|status_code text].
    + destruct Hcases as [-> Hcache]. split; [discriminate | exact Hcache].
    + destruct (Services.is_success status_code).
      * destruct (decode w (model_of f) text) as [data|]; [exact Hcases|].
        destruct Hcases as [-> Hcache]. split; [discriminate | exact Hcache].
      * destruct Hcases as [[-> | ->] Hcache];
          (split; [discriminate | exact Hcache]).
Qed.

Lemma cache_get_or_fetch_witness :
  let f := Profile "ACME" "token" in
  (exists w',
     run f (Sample.world 299 Sample.answers)
     = (Ok (Some (ProfileModel Sample.profile)), w')
     /\ requests w' = []
     /\ _finnhub_cache w'
        = _finnhub_cache (Sample.world 299 Sample.answers))
  /\ (exists w',
        run f (Sample.world 300 Sample.answers)
        = (Ok (Some (ProfileModel Sample.refreshed)), w')
        /\ requests w' = [url_of f]
        /\ _finnhub_cache w' !! key_of f
           = Some (CacheEntry.mk (ProfileModel Sample.refreshed) 300000000))
  /\ (exists result w',
        run f (Sample.world 300 Sample.unreachable) = (result, w')
        /\ requests w' = [url_of f]
        /\ _finnhub_cache w'
           = _finnhub_cache (Sample.world 300 Sample.unreachable)).
Proof.
  intros f. repeat apply conj.
  - destruct (cache_get_or_fetch f (Sample.world 299 Sample.answers))
      as [Hhit _].
    apply (Hhit (CacheEntry.mk (ProfileModel Sample.profile) 0));
      [reflexivity | unfold live; simpl; lia].
  - destruct (cache_get_or_fetch f (Sample.world 300 Sample.answers))
      as [_ Hmiss].
    destruct Hmiss as (result & w' & Hrun & Hreq & Hres & n & _ & _ & Hcache).
    { intros entry H. vm_compute in H. injection H as <-.
      unfold live. simpl. lia. }
    exists w'. rewrite Hrun, Hres, Hreq, Hcache, lookup_insert_eq.
    repeat apply conj; reflexivity.
  - destruct (cache_get_or_fetch f (Sample.world 300 Sample.unreachable))
      as [_ Hmiss].
    destruct Hmiss as (result & w' & Hrun & Hreq & _ & Hcache).
    { intros entry H. vm_compute in H. injection H as <-.
      unfold live. simpl. lia. }
    exists result, w'. repeat apply conj; assumption.
Defined.

(** ** Key metrics *)

(** A growth field of [KeyMetricsOut] is populated from the keyword
    argument of its own name and from no other. *)
Lemma KeyMetricsOut_init_growth float_of_str kwargs out :
  KeyMetricsOut.init float_of_str kwargs = Ok out ->
  Pydantic.optional_float float_of_str
    (Pydantic.kwarg kwargs "revenue_growth_ttm_yoy")
  = Ok (KeyMetricsOut.revenue_growth_ttm_yoy out)
  /\ Pydantic.optional_float float_of_str
       (Pydantic.kwarg kwargs "eps_growth_ttm_yoy")
     = Ok (KeyMetricsOut.eps_growth_ttm_yoy out).
Proof.
  unfold KeyMetricsOut.init, mbind, Result_bind, mret, Result_ret.
  repeat match goal with
    | |- context [match ?r with Ok _ => _ | Raise _ => _ end] =>
        destruct r eqn:?; [|discriminate]
    end.
  intros [= <-]. split; reflexivity.
Qed.

(** An argument that names no declared field is dropped. *)
Lemma KeyMetricsOut_init_ignores_percent float_of_str v1 v2 kwargs :
  KeyMetricsOut.init float_of_str
    (("revenue_growth_ttm_yoy_percent", v1)
       :: ("eps_growth_ttm_yoy_percent", v2) :: kwargs)
  = KeyMetricsOut.init float_of_str kwargs.
Proof. reflexivity. Qed.

(** C9. For every upstream metrics payload, the key-metrics endpoint's
    output fields revenue_growth_ttm_yoy and eps_growth_ttm_yoy are always
    null: the handler passes the percentage-converted values under the
    names revenue_growth_ttm_yoy_percent and eps_growth_ttm_yoy_percent,
    which the output schema does not declare, so they are dropped at
    construction.  This holds of every output the endpoint returns,
    whatever the payload holds under quickRatioQuarterly (a number, null
    or a numeric string) and however the constructor reads numeric
    strings. *)
Theorem key_metrics_growth_null (float_of_str : string -> option float)
    (symbol api_key : string) (w w' : World) (out : KeyMetricsOut.t) :
  Endpoints.get_company_metrics_endpoint float_of_str symbol api_key w
  = (Ok out, w') ->
  KeyMetricsOut.revenue_growth_ttm_yoy out = None
  /\ KeyMetricsOut.eps_growth_ttm_yoy out = None.
Proof.
  unfold Endpoints.get_company_metrics_endpoint, mbind, M_bind, lift, raise.
  destruct (Services.get_basic_financials symbol api_key "all" w)
    as [[finnhub_data|e] w1]; [|discriminate].
  assert (Hhandler : forall d,
            Metrics.key_metrics float_of_str symbol d = Ok out ->
            KeyMetricsOut.revenue_growth_ttm_yoy out = None
            /\ KeyMetricsOut.eps_growth_ttm_yoy out = None).
  { intros d. unfold Metrics.key_metrics.
    destruct d as [d|]; [|discriminate].
    destruct (FinnhubBasicFinancials.metric d) as [metrics|]; [|discriminate].
    unfold mbind at 1, Result_bind at 1.
    destruct (FinnhubMetricData.getattr_extra _ _) as [quick|];
      [|discriminate].
    intros Hinit. apply KeyMetricsOut_init_growth in Hinit as [H1 H2].
    injection H1 as <-. injection H2 as <-. split; reflexivity. }
  destruct finnhub_data as [[p|b|r]|]; intros E; try discriminate E.
  apply (Hhandler (Some b)). congruence.
Qed.

Lemma key_metrics_growth_null_witness :
  FinnhubMetricData.revenueGrowthTTMYoy Sample.metric_data = Some 0.5%float
  /\ (exists out w',
        Endpoints.get_company_metrics_endpoint Sample.float_of_str
          "ACME" "token" (Sample.metrics_world Sample.basic_financials)
        = (Ok out, w')
        /\ KeyMetricsOut.quick_ratio_annual out = Some 1.25%float
        /\ KeyMetricsOut.revenue_growth_ttm_yoy out = None
        /\ KeyMetricsOut.eps_growth_ttm_yoy out = None)
  /\ FinnhubMetricData.revenueGrowthTTMYoy Sample.quoted_metric_data
     = Some 0.5%float
  /\ FinnhubMetricData.extra Sample.quoted_metric_data
     = [("quickRatioQuarterly", VStr "1.5")]
  /\ (exists out w',
        Endpoints.get_company_metrics_endpoint Sample.float_of_str
          "ACME" "token"
          (Sample.metrics_world Sample.quoted_basic_financials)
        = (Ok out, w')
        /\ KeyMetricsOut.quick_ratio_annual out = Some 1.5%float
        /\ KeyMetricsOut.revenue_growth_ttm_yoy out = None
        /\ KeyMetricsOut.eps_growth_ttm_yoy out = None).
Proof.
  split; [reflexivity|]. split; [|split; [reflexivity|split; [reflexivity|]]].
  - eexists _, _. split; [reflexivity|]. split; [reflexivity|].
    eapply (key_metrics_growth_null Sample.float_of_str "ACME" "token"
              (Sample.metrics_world Sample.basic_financials)).
    reflexivity.
  - eexists _, _. split; [reflexivity|]. split; [reflexivity|].
    eapply (key_metrics_growth_null Sample.float_of_str "ACME" "token"
              (Sample.metrics_world Sample.quoted_basic_financials)).
    reflexivity.
Defined.

(** ** Company profile *)

Lemma rejected_run (w : World) (f : Fetch) :
  rejected w f ->
  exists w', run f w = (Ok None, w')
             /\ _finnhub_cache w' = _finnhub_cache w.
Proof.
  intros (Hstale & text & Hreply & Hinvalid).
  rewrite run_cached_fetch. unfold live in Hstale. run_monad.
  unfold Services.timedelta, Services.CACHE_EXPIRATION_SECONDS.
  destruct (_finnhub_cache w !! key_of f) as [entry|] eqn:Hentry.
  - destruct (Z.ltb_spec (clock w (ticks w) - CacheEntry.timestamp entry)
                (300 * 1000000)) as [Hlt|_];
      [exfalso; exact (Hstale entry eq_refl Hlt)|].
    simpl. rewrite Hreply. simpl. rewrite Hinvalid. simpl.
    eexists. split; reflexivity.
  - simpl. rewrite Hreply. simpl. rewrite Hinvalid. simpl.
    eexists. split; reflexivity.
Qed.

(** C10. When the upstream company-profile fetch yields null (the
    invalid-symbol case), the company-profile endpoint handler dereferences
    the null result while building its output and raises an unhandled
    error, instead of signaling a not-found condition the way the
    key-metrics and financial-statements endpoints do for the same case. *)
Theorem profile_endpoint_null_dereference
    (float_of_str : string -> option float) (symbol api_key : string)
    (w : World) :
  (rejected w (Profile symbol api_key) ->
   exists w',
     Services.get_company_profile symbol api_key w = (Ok None, w')
     /\ Endpoints.get_company_profile_endpoint symbol api_key w
        = (Raise (AttributeError "NoneType" "ticker"), w'))
  /\ (rejected w (BasicFinancials symbol api_key "all") ->
      exists w' detail,
        Services.get_basic_financials symbol api_key "all" w = (Ok None, w')
        /\ Endpoints.get_company_metrics_endpoint float_of_str symbol
             api_key w
           = (Raise (HTTPException 404 detail), w'))
  /\ (rejected w (ReportedFinancials symbol api_key "annual") ->
      exists w' detail,
        Services.get_financials_reported symbol api_key "annual" w
        = (Ok None, w')
        /\ Endpoints.get_company_financials_endpoint symbol api_key w
           = (Raise (HTTPException 404 detail), w')).
Proof.
  repeat apply conj; intros H; apply rejected_run in H as (w' & Hrun & _);
    simpl in Hrun.
  - exists w'. split; [exact Hrun|].
    unfold Endpoints.get_company_profile_endpoint, mbind, M_bind.
    rewrite Hrun. reflexivity.
  - eexists w', _. split; [exact Hrun|].
    unfold Endpoints.get_company_metrics_endpoint, mbind, M_bind.
    rewrite Hrun. reflexivity.
  - eexists w', _. split; [exact Hrun|].
    unfold Endpoints.get_company_financials_endpoint, mbind, M_bind.
    rewrite Hrun. reflexivity.
Qed.

Lemma profile_endpoint_null_dereference_witness :
  let w := Sample.empty_world Sample.invalid_symbol in
  (exists w',
     Endpoints.get_company_profile_endpoint "XX" "token" w
     = (Raise (AttributeError "NoneType" "ticker"), w'))
  /\ (exists w' detail,
        Endpoints.get_company_metrics_endpoint Sample.float_of_str "XX"
          "token" w
        = (Raise (HTTPException 404 detail), w')).
Proof.
  intros w.
  assert (Hrej : forall f, rejected w f).
  { intros f. split.
    - intros entry H. simpl in H. rewrite lookup_empty in H. discriminate.
    - eexists. split; reflexivity. }
  destruct (profile_endpoint_null_dereference Sample.float_of_str "XX"
              "token" w)
    as (Hp & Hm & _).
  split.
  - destruct (Hp (Hrej _)) as (w' & _ & H). exists w'. exact H.
  - destruct (Hm (Hrej _)) as (w' & detail & _ & H). exists w', detail.
    exact H.
Defined.

(** * Further properties of the code *)

(** ** Cache keys *)

Section SortUnique.
Context {A : Type} (key : A -> string).

Lemma sort_asc_of_sorted (l : list A) :
  StronglySorted (Py.key_le key) l -> Py.sort_asc key l = l.
Proof.
  induction 1 as [|x xs Hs IH Hall]; simpl; [reflexivity|].
  rewrite IH. destruct Hall as [|y ys Hy _]; simpl; [reflexivity|].
  unfold Py.key_le in Hy. rewrite Hy. reflexivity.
Qed.

(** Two sorted arrangements of the same elements coincide when no two
    elements share a key. *)
Lemma sorted_unique (l1 l2 : list A) :
  List.NoDup (map key l1) ->
  StronglySorted (Py.key_le key) l1 ->
  StronglySorted (Py.key_le key) l2 ->
  Permutation l1 l2 ->
  l1 = l2.
Proof.
  revert l2. induction l1 as [|x l1 IH]; intros l2 Hnd Hs1 Hs2 Hp.
  - apply Permutation_nil in Hp. congruence.
  - destruct l2 as [|y l2];
      [apply Permutation_sym, Permutation_nil in Hp; discriminate|].
    inversion Hnd as [|? ? Hnotin Hnd']; subst.
    inversion Hs1 as [|? ? Hs1' Hall1]; subst.
    inversion Hs2 as [|? ? Hs2' Hall2]; subst.
    assert (Hxy : x = y).
    { assert (Hx : In x (y :: l2))
        by (apply (Permutation_in _ Hp); left; reflexivity).
      assert (Hy : In y (x :: l1))
        by (apply (Permutation_in _ (Permutation_sym Hp)); left;
            reflexivity).
      destruct Hx as [Hx|Hx]; [congruence|].
      destruct Hy as [Hy|Hy]; [congruence|].
      exfalso. apply Hnotin.
      rewrite List.Forall_forall in Hall1, Hall2.
      assert (Hk : key x = key y)
        by (apply String.leb_antisym; [apply Hall1 | apply Hall2];
            assumption).
      rewrite Hk. apply in_map. exact Hy. }
    subst y. f_equal.
    apply IH; try assumption. eapply Permutation_cons_inv. exact Hp.
Qed.

Lemma sort_asc_permutation_invariant (l1 l2 : list A) :
  List.NoDup (map key l1) ->
  Permutation l1 l2 ->
  Py.sort_asc key l1 = Py.sort_asc key l2.
Proof.
  intros Hnd Hp. apply sorted_unique.
  - eapply Permutation_NoDup; [|exact Hnd].
    apply Permutation_map, Permutation_sym, sort_asc_perm.
  - apply sort_asc_sorted.
  - apply sort_asc_sorted.
  - rewrite !sort_asc_perm. exact Hp.
Qed.

End SortUnique.

(** X1. The cache key does not depend on the order in which the auxiliary
    parameters are given (their names being distinct, as those of keyword
    arguments are). *)
Theorem get_cache_key_order_independent (endpoint symbol : string)
    (kwargs kwargs' : list (string * string)) :
  List.NoDup (map fst kwargs) ->
  Permutation kwargs kwargs' ->
  Services._get_cache_key endpoint symbol kwargs
  = Services._get_cache_key endpoint symbol kwargs'.
Proof.
  intros Hnd Hp. unfold Services._get_cache_key, Py.sorted.
  rewrite (sort_asc_permutation_invariant fst kwargs kwargs' Hnd Hp).
  reflexivity.
Qed.

Lemma get_cache_key_order_independent_witness :
  Services._get_cache_key "financials_reported" "ACME"
    [("type", "annual"); ("freq", "all")]
  = Services._get_cache_key "financials_reported" "ACME"
      [("freq", "all"); ("type", "annual")]
  /\ Services._get_cache_key "financials_reported" "ACME"
       [("type", "annual"); ("freq", "all")]
     = "financials_reported_ACME_freq=all_type=annual".
Proof.
  split; [|reflexivity].
  apply get_cache_key_order_independent.
  - repeat constructor; simpl; intuition discriminate.
  - apply perm_swap.
Defined.

Lemma string_length_append (s t : string) :
  String.length (s ++ t) = (String.length s + String.length t)%nat.
Proof.
  induction s as [|c s IH]; simpl; [reflexivity | rewrite IH; reflexivity].
Qed.

Lemma string_append_cancel_r (s1 s2 t : string) :
  (s1 ++ t = s2 ++ t)%string -> s1 = s2.
Proof.
  revert s2. induction s1 as [|c s1 IH]; intros [|d s2] H; simpl in H.
  - reflexivity.
  - apply (f_equal String.length) in H.
    rewrite !string_length_append in H. simpl in H. lia.
  - apply (f_equal String.length) in H.
    rewrite !string_length_append in H. simpl in H. lia.
  - injection H as -> H. f_equal. apply IH. exact H.
Qed.

Lemma endpoint_key_run (route : Route) (symbol api_key : string) :
  run (endpoint_fetch route symbol api_key)
  = Services.cached_fetch (endpoint_key route symbol)
      (url_of (endpoint_fetch route symbol api_key))
      (model_of (endpoint_fetch route symbol api_key)).
Proof. destruct route; reflexivity. Qed.

(** X2. The cache keys the three endpoints use determine the endpoint and
    the symbol: two requests share a cache entry only if they are for the
    same endpoint and the same symbol. *)
Theorem endpoint_key_injective (route1 route2 : Route)
    (symbol1 symbol2 : string) :
  endpoint_key route1 symbol1 = endpoint_key route2 symbol2 ->
  route1 = route2 /\ symbol1 = symbol2.
Proof.
  destruct route1, route2; simpl; intros H; try discriminate H;
    (split; [reflexivity|]); injection H as H.
  - exact H.
  - apply (string_append_cancel_r _ _ "_metric=all"). exact H.
  - apply (string_append_cancel_r _ _ "_type=annual"). exact H.
Qed.

Lemma endpoint_key_injective_witness :
  MetricsRoute = MetricsRoute /\ "ACME" = "ACME".
Proof.
  apply (endpoint_key_injective MetricsRoute MetricsRoute). reflexivity.
Defined.

(** ** Filing selection and the report *)

Lemma filter_all_true {A} (p : A -> bool) (l : list A) :
  Forall (fun x => p x = true) l -> List.filter p l = l.
Proof.
  induction 1 as [|x xs Hx _ IH]; simpl; [reflexivity|].
  rewrite Hx, IH. reflexivity.
Qed.

Lemma sorted_reverse_of_descending {A} (key : A -> string) (l : list A) :
  StronglySorted (fun a b => Py.key_le key b a) l ->
  Py.sorted key true l = l.
Proof.
  intros Hs. unfold Py.sorted.
  rewrite sort_asc_of_sorted; [apply rev_involutive|].
  apply (StronglySorted_rev_flip (fun a b => Py.key_le key b a)), Hs.
Qed.

(** X3. Selecting the annual filings of an already selected sequence
    changes nothing: selection is idempotent. *)
Theorem annual_filings_idempotent (data : list FinancialFilingData.t) :
  Financials.annual_filings (Financials.annual_filings data)
  = Financials.annual_filings data.
Proof.
  unfold Financials.annual_filings at 1.
  rewrite filter_all_true.
  - apply sorted_reverse_of_descending, sorted_reverse_descending.
  - apply List.Forall_forall. intros f Hin.
    apply annual_filings_In in Hin. apply is_annual_10K_iff. tauto.
Qed.

Lemma filings_loop_iterations (filings : list FinancialFilingData.t) :
  Forall (fun f => FinancialFilingData.report f <> None) filings ->
  forall filings_out previous_year_values,
  exists outs,
    Financials.filings_loop filings filings_out previous_year_values
    = Ok (filings_out ++ outs)%list
    /\ Forall2 iteration filings outs.
Proof.
  induction 1 as [|f older Hf _ IH]; intros acc prev; simpl.
  - exists []. rewrite app_nil_r. split; [reflexivity | constructor].
  - destruct (loop_body_step f prev Hf) as (out & prev' & Hbody & _).
    rewrite Hbody.
    destruct (IH (acc ++ [out])%list prev') as (outs & -> & Hall).
    exists (out :: outs). rewrite <- app_assoc.
    split; [reflexivity|]. constructor; [|exact Hall].
    exists prev, prev'. exact Hbody.
Qed.

Lemma summarise_iterations (symbol : string) (d : FinnhubFinancialsReport.t)
    (report_out : FinancialReportsOut.t) :
  Financials.summarise symbol (Some d) = Ok report_out ->
  Forall2 iteration
    (Financials.annual_filings (FinnhubFinancialsReport.data d))
    (FinancialReportsOut.filings report_out).
Proof.
  intros H. apply summarise_filings in H as [Hloop _].
  destruct (filings_loop_iterations _
              (annual_filings_have_reports (FinnhubFinancialsReport.data d))
              [] ∅) as (outs & Hloop' & Hall).
  rewrite Hloop in Hloop'. injection Hloop' as ->. exact Hall.
Qed.

(** X4. The financial-statements handler answers 404 "No annual financial
    reports found" when the provider gave nothing or an empty list, 404
    "No 10-K annual reports found ... after filtering" when filings exist
    but none is an annual 10-K with a payload, and otherwise returns, under
    the requested symbol, one output filing per filing that passes the
    filter; it raises nothing else. *)
Theorem summarise_outcome (symbol : string)
    (finnhub_data : option FinnhubFinancialsReport.t) :
  match finnhub_data with
  | None =>
      Financials.summarise symbol None
      = Raise (HTTPException 404 (no_reports_detail symbol))
  | Some d =>
      let data := FinnhubFinancialsReport.data d in
      let kept := List.filter Financials.is_annual_10K data in
      (data = [] ->
       Financials.summarise symbol (Some d)
       = Raise (HTTPException 404 (no_reports_detail symbol)))
      /\ (data <> [] -> kept = [] ->
          Financials.summarise symbol (Some d)
          = Raise (HTTPException 404 (no_10K_detail symbol)))
      /\ (kept <> [] ->
          exists filings,
            Financials.summarise symbol (Some d)
            = Ok (FinancialReportsOut.mk symbol filings)
            /\ List.length filings = List.length kept)
  end.
Proof.
  destruct finnhub_data as [d|]; [|reflexivity].
  intros data kept. unfold Financials.summarise. fold data.
  assert (Hperm : Permutation (Financials.annual_filings data) kept)
    by apply sorted_reverse_perm.
  repeat apply conj.
  - intros ->. reflexivity.
  - intros Hdata Hkept.
    destruct data as [|f fs] eqn:E; [congruence|]. simpl negb at 1.
    cbv iota. rewrite <- E in *.
    rewrite Hkept in Hperm. apply Permutation_sym, Permutation_nil in Hperm.
    rewrite Hperm. reflexivity.
  - intros Hkept.
    assert (Hdata : data <> []) by (intros E; apply Hkept; subst kept;
                                    rewrite E; reflexivity).
    destruct data as [|f fs] eqn:E; [congruence|]. simpl negb at 1.
    cbv iota. rewrite <- E in *.
    destruct (Financials.annual_filings data) as [|g gs] eqn:Ea.
    { apply Permutation_nil in Hperm. congruence. }
    simpl negb. cbv iota.
    destruct (filings_loop_growth_pairs (g :: gs)) with (filings_out :=
      @nil FinancialFilingOut.t) (previous_year_values :=
      (∅ : gmap string (option float))) as (outs & Hloop & Hacc & _).
    { rewrite <- Ea. apply annual_filings_have_reports. }
    rewrite Hloop. exists outs. split; [reflexivity|].
    rewrite <- (Permutation_length Hperm).
    rewrite <- (length_map FinancialFilingOut.access_number), Hacc.
    apply length_map.
Qed.

Lemma summarise_outcome_witness :
  (exists filings,
     Financials.summarise "ACME"
       (Some (FinnhubFinancialsReport.mk "0000001" Sample.data "ACME"))
     = Ok (FinancialReportsOut.mk "ACME" filings)
     /\ List.length filings = 5%nat)
  /\ Financials.summarise "ACME"
       (Some (FinnhubFinancialsReport.mk "0000001" [Sample.quarterly] "ACME"))
     = Raise (HTTPException 404 (no_10K_detail "ACME")).
Proof.
  split.
  - destruct (summarise_outcome "ACME"
                (Some (FinnhubFinancialsReport.mk "0000001" Sample.data
                         "ACME"))) as (_ & _ & H).
    apply H. discriminate.
  - destruct (summarise_outcome "ACME"
                (Some (FinnhubFinancialsReport.mk "0000001"
                         [Sample.quarterly] "ACME"))) as (_ & H & _).
    apply H; [discriminate | reflexivity].
Defined.

Lemma iteration_inv (f : FinancialFilingData.t) (out : FinancialFilingOut.t) :
  iteration f out ->
  exists r,
    FinancialFilingData.report f = Some r
    /\ same_metadata f out
    /\ FinancialFilingOut.income_statement out
       = (let s := Financials.populate_income (FinancialReportDetails.ic r) in
          if existsb Financials.is_not_None
               (IncomeStatementOut.model_dump_values s)
          then Some s else None)
    /\ FinancialFilingOut.balance_sheet out
       = (let s := Financials.populate_balance (FinancialReportDetails.bs r) in
          if existsb Financials.is_not_None
               (BalanceSheetOut.model_dump_values s)
          then Some s else None)
    /\ FinancialFilingOut.cash_flow_statement out
       = (let s :=
            Financials.populate_cash_flow (FinancialReportDetails.cf r) in
          if existsb Financials.is_not_None
               (CashFlowStatementOut.model_dump_values s)
          then Some s else None).
Proof.
  intros (prev & prev' & Hbody). unfold Financials.loop_body in Hbody.
  destruct (FinancialFilingData.report f) as [r|]; [|discriminate].
  injection Hbody as <- _. exists r.
  unfold same_metadata. simpl. repeat apply conj; reflexivity.
Qed.

Lemma StronglySorted_map {A B} (R : B -> B -> Prop) (g : A -> B)
    (l : list A) :
  StronglySorted (fun a b => R (g a) (g b)) l -> StronglySorted R (map g l).
Proof.
  induction 1 as [|x xs Hs IH Hall]; simpl; constructor; [exact IH|].
  apply Forall_map. exact Hall.
Qed.

Lemma endDate_key_default (f : FinancialFilingData.t) :
  Financials.endDate_key f = default "" (FinancialFilingData.endDate f).
Proof.
  unfold Financials.endDate_key.
  destruct (FinancialFilingData.endDate f) as [[|c d]|]; reflexivity.
Qed.

(** X5. Every filing of a returned report is an annual 10-K (form "10-K",
    quarter 0) that repeats the metadata of the selected filing at the same
    position, and the report lists its filings by end date, latest first,
    a missing end date counting as the empty string. *)
Theorem report_filings_metadata (symbol : string)
    (d : FinnhubFinancialsReport.t) (report_out : FinancialReportsOut.t) :
  Financials.summarise symbol (Some d) = Ok report_out ->
  let outs := FinancialReportsOut.filings report_out in
  Forall2 same_metadata
    (Financials.annual_filings (FinnhubFinancialsReport.data d)) outs
  /\ Forall (fun out =>
               FinancialFilingOut.form_type out = "10-K"
               /\ FinancialFilingOut.quarter out = 0) outs
  /\ StronglySorted (fun later earlier => String.leb earlier later = true)
       (map (fun out => default "" (FinancialFilingOut.end_date out)) outs).
Proof.
  intros H outs. apply summarise_iterations in H. fold outs in H.
  assert (Hmeta : Forall2 same_metadata
            (Financials.annual_filings (FinnhubFinancialsReport.data d))
            outs).
  { eapply Forall2_impl; [exact H|].
    intros f out Hit. apply iteration_inv in Hit as (r & _ & Hm & _).
    exact Hm. }
  repeat apply conj.
  - exact Hmeta.
  - assert (Hsel : Forall (fun f => FinancialFilingData.form f = "10-K"
                                    /\ FinancialFilingData.quarter f = 0)
              (Financials.annual_filings (FinnhubFinancialsReport.data d))).
    { apply List.Forall_forall. intros f Hin.
      apply annual_filings_In in Hin. tauto. }
    clear H. induction Hmeta as [|f out fs os Hm _ IH]; [constructor|].
    inversion Hsel as [|? ? [Hform Hq] Hsel']; subst.
    constructor; [|apply IH; exact Hsel'].
    destruct Hm as (_ & _ & Hf & _ & Hquarter & _).
    split; congruence.
  - assert (Hkeys :
      map (fun out => default "" (FinancialFilingOut.end_date out)) outs
      = map Financials.endDate_key
          (Financials.annual_filings (FinnhubFinancialsReport.data d))).
    { clear H. induction Hmeta as [|f out fs os Hm _ IH]; [reflexivity|].
      simpl. rewrite IH, endDate_key_default.
      destruct Hm as (_ & _ & _ & _ & _ & _ & -> & _). reflexivity. }
    rewrite Hkeys. apply StronglySorted_map.
    apply (sorted_reverse_descending Financials.endDate_key).
Qed.

Lemma report_filings_metadata_witness :
  exists report_out,
    Financials.summarise "ACME"
      (Some (FinnhubFinancialsReport.mk "0000001" Sample.data "ACME"))
    = Ok report_out
    /\ map FinancialFilingOut.access_number
         (FinancialReportsOut.filings report_out)
       = ["2022"; "2021-a"; "2021-b"; "undated-a"; "undated-b"]
    /\ Forall (fun out =>
                 FinancialFilingOut.form_type out = "10-K"
                 /\ FinancialFilingOut.quarter out = 0)
         (FinancialReportsOut.filings report_out).
Proof.
  eexists. split; [vm_compute; reflexivity|]. split; [reflexivity|].
  eapply (report_filings_metadata "ACME"
            (FinnhubFinancialsReport.mk "0000001" Sample.data "ACME")).
  vm_compute. reflexivity.
Defined.

(** X6. Three declared slots are never populated: in every returned
    report the income statement has no operating expenses, the balance
    sheet no goodwill and the cash-flow statement no changes in working
    capital, whatever the provider sent. *)
Theorem unpopulated_slots (symbol : string) (d : FinnhubFinancialsReport.t)
    (report_out : FinancialReportsOut.t) :
  Financials.summarise symbol (Some d) = Ok report_out ->
  Forall unpopulated (FinancialReportsOut.filings report_out).
Proof.
  intros H. apply summarise_iterations in H.
  induction H as [|f out fs os Hit _ IH]; constructor; [|exact IH].
  apply iteration_inv in Hit as (r & _ & _ & Hic & Hbs & Hcf).
  unfold unpopulated. repeat apply conj; intros s Hs.
  - rewrite Hic in Hs. cbv zeta in Hs.
    destruct (existsb _ _); [|discriminate]. injection Hs as <-.
    unfold Financials.populate_income.
    destruct (Py.truthy_list _); reflexivity.
  - rewrite Hbs in Hs. cbv zeta in Hs.
    destruct (existsb _ _); [|discriminate]. injection Hs as <-.
    unfold Financials.populate_balance.
    destruct (Py.truthy_list _); reflexivity.
  - rewrite Hcf in Hs. cbv zeta in Hs.
    destruct (existsb _ _); [|discriminate]. injection Hs as <-.
    unfold Financials.populate_cash_flow.
    destruct (Py.truthy_list _); reflexivity.
Qed.

Lemma unpopulated_slots_witness :
  let items :=
    [Sample.item "us-gaap_Revenues" (Some 10%float);
     Sample.item "us-gaap_OperatingExpenses" (Some 4%float);
     Sample.item "us-gaap_Goodwill" (Some 7%float)] in
  let filing :=
    Sample.filing "2022" 0 "10-K" (Some "2022-12-31")
      (Some (FinancialReportDetails.mk (Some items) (Some items) None)) in
  exists report_out,
    Financials.summarise "ACME"
      (Some (FinnhubFinancialsReport.mk "0000001" [filing] "ACME"))
    = Ok report_out
    /\ Forall unpopulated (FinancialReportsOut.filings report_out).
Proof.
  intros items filing. eexists. split; [vm_compute; reflexivity|].
  eapply (unpopulated_slots "ACME"
            (FinnhubFinancialsReport.mk "0000001" [filing] "ACME")).
  vm_compute. reflexivity.
Defined.

Lemma find_concept_value_traced (section : option (list ReportItem.t))
    (concept : string) (resolved : FinancialItemOut.t) :
  Financials.find_concept_value section concept = Some resolved ->
  exists items item,
    section = Some items /\ In item items /\ resolved = Spec.normalise item.
Proof.
  destruct section as [items|]; [|discriminate].
  rewrite find_concept_value_first_tagged. unfold Spec.first_tagged.
  destruct (List.find _ items) as [item|] eqn:E; [|discriminate].
  intros [= <-]. apply List.find_some in E as [Hin _].
  exists items, item. auto.
Qed.

Lemma resolve_revenue_traced (section : option (list ReportItem.t))
    (resolved : FinancialItemOut.t) :
  Financials.resolve_revenue section = Some resolved ->
  exists items item,
    section = Some items /\ In item items /\ resolved = Spec.normalise item.
Proof.
  unfold Financials.resolve_revenue.
  destruct (Financials.find_concept_value section "us-gaap_Revenues")
    as [o|] eqn:E; simpl.
  - intros [= <-]. exact (find_concept_value_traced _ _ _ E).
  - apply find_concept_value_traced.
Qed.

Ltac traced_slots :=
  repeat constructor;
  try discriminate;
  try (intros ?; apply find_concept_value_traced);
  try (intros ?; apply resolve_revenue_traced).

(** X7. Normalisation invents nothing: every non-null slot of a statement
    in a returned report is the resolved form (same label, value and unit)
    of an item that the filing carries in the corresponding raw section. *)
Theorem statements_traced (symbol : string) (d : FinnhubFinancialsReport.t)
    (report_out : FinancialReportsOut.t) :
  Financials.summarise symbol (Some d) = Ok report_out ->
  Forall2 traced_filing
    (Financials.annual_filings (FinnhubFinancialsReport.data d))
    (FinancialReportsOut.filings report_out).
Proof.
  intros H. apply summarise_iterations in H.
  eapply Forall2_impl; [exact H|]. clear H.
  intros f out Hit.
  apply iteration_inv in Hit as (r & Hr & _ & Hic & Hbs & Hcf).
  exists r. split; [exact Hr|]. repeat apply conj; intros s Hs.
  - rewrite Hic in Hs. cbv zeta in Hs.
    destruct (existsb _ _); [|discriminate]. injection Hs as <-.
    unfold Financials.populate_income, traced.
    destruct (Py.truthy_list _); simpl; traced_slots.
  - rewrite Hbs in Hs. cbv zeta in Hs.
    destruct (existsb _ _); [|discriminate]. injection Hs as <-.
    unfold Financials.populate_balance, traced.
    destruct (Py.truthy_list _); simpl; traced_slots.
  - rewrite Hcf in Hs. cbv zeta in Hs.
    destruct (existsb _ _); [|discriminate]. injection Hs as <-.
    unfold Financials.populate_cash_flow, traced.
    destruct (Py.truthy_list _); simpl; traced_slots.
Qed.

Lemma statements_traced_witness :
  exists report_out,
    Financials.summarise "ACME"
      (Some (FinnhubFinancialsReport.mk "0000001" Sample.data "ACME"))
    = Ok report_out
    /\ Forall2 traced_filing (Financials.annual_filings Sample.data)
         (FinancialReportsOut.filings report_out).
Proof.
  eexists. split; [vm_compute; reflexivity|].
  eapply (statements_traced "ACME"
            (FinnhubFinancialsReport.mk "0000001" Sample.data "ACME")).
  vm_compute. reflexivity.
Defined.

(** ** Health and classifiers *)

(** X8. A filing with positive net income and positive cash from
    operations is never labelled "Concerning", and never left without a
    label: whatever the two ratios are, its health is "Strong" or
    "Stable". *)
Theorem health_profitable (net_income cash : float)
    (current_ratio debt_to_equity_ratio : option float) :
  (0 <? net_income)%float = true ->
  (0 <? cash)%float = true ->
  Financials._assess_financial_health (Some net_income) (Some cash)
    current_ratio debt_to_equity_ratio = Some "Strong"
  \/ Financials._assess_financial_health (Some net_income) (Some cash)
       current_ratio debt_to_equity_ratio = Some "Stable".
Proof.
  intros Hni Hcash. unfold Financials._assess_financial_health. simpl.
  rewrite Hni, Hcash.
  destruct current_ratio as [cr|], debt_to_equity_ratio as [de|]; simpl;
    repeat match goal with
      | |- context [Py.isinf ?x] => destruct (Py.isinf x); simpl
      | |- context [Py.isnan ?x] => destruct (Py.isnan x); simpl
      end;
    repeat match goal with
      | |- context [(?a <? ?b)%float] => destruct (a <? b)%float; simpl
      | |- context [(?a <=? ?b)%float] => destruct (a <=? b)%float; simpl
      end;
    auto.
Qed.

Lemma health_profitable_witness :
  Financials._assess_financial_health (Some 10%float) (Some 5%float)
    (Some 0.5%float) (Some 3%float) = Some "Strong"
  \/ Financials._assess_financial_health (Some 10%float) (Some 5%float)
       (Some 0.5%float) (Some 3%float) = Some "Stable".
Proof. apply health_profitable; reflexivity. Defined.

(** X9. "Concerning" needs a bad ratio: the label is given only when the
    current ratio is a finite number below 1 or the debt-to-equity ratio is
    a finite number above 2. *)
Theorem health_concerning (net_income cash current_ratio
    debt_to_equity_ratio : option float) :
  Financials._assess_financial_health net_income cash current_ratio
    debt_to_equity_ratio = Some "Concerning" ->
  (exists x, current_ratio = Some x /\ Py.isinf x = false
             /\ Py.isnan x = false /\ (x <? 1)%float = true)
  \/ (exists x, debt_to_equity_ratio = Some x /\ Py.isinf x = false
                /\ Py.isnan x = false /\ (2 <? x)%float = true).
Proof.
  unfold Financials._assess_financial_health, Financials.health_label.
  destruct net_income as [ni|], cash as [c|], current_ratio as [cr|],
    debt_to_equity_ratio as [de|]; simpl;
    repeat match goal with
      | |- context [Py.isinf ?x] => destruct (Py.isinf x) eqn:?; simpl
      | |- context [Py.isnan ?x] => destruct (Py.isnan x) eqn:?; simpl
      end;
    repeat match goal with
      | |- context [(?a <? ?b)%float] => destruct (a <? b)%float eqn:?; simpl
      | |- context [(?a <=? ?b)%float] =>
          destruct (a <=? b)%float eqn:?; simpl
      end;
    try discriminate; intros _;
    first [ left; eexists; repeat apply conj; (reflexivity || eassumption)
          | right; eexists; repeat apply conj; (reflexivity || eassumption) ].
Qed.

Lemma health_concerning_witness :
  (exists x, Some 0.5%float = Some x /\ Py.isinf x = false
             /\ Py.isnan x = false /\ (x <? 1)%float = true)
  \/ (exists x, @None float = Some x /\ Py.isinf x = false
                /\ Py.isnan x = false /\ (2 <? x)%float = true).
Proof.
  apply (health_concerning (Some (-1)%float) None (Some 0.5%float) None).
  reflexivity.
Defined.

Lemma SFcompare_antisym (x y : spec_float) :
  SFcompare y x = option_map CompOpp (SFcompare x y).
Proof.
  destruct x as [[]|[]| |[] mx ex], y as [[]|[]| |[] my ey]; simpl;
    try reflexivity;
    rewrite (Z.compare_antisym ex ey);
    destruct (ex ?= ey)%Z; simpl; try reflexivity;
    change (Pos.compare_cont Eq my mx) with (Pos.compare my mx);
    change (Pos.compare_cont Eq mx my) with (Pos.compare mx my);
    rewrite (Pos.compare_antisym mx my);
    destruct (mx ?= my)%positive; reflexivity.
Qed.

Lemma SFcompare_refl (x : spec_float) :
  x <> S754_nan -> SFcompare x x = Some Eq.
Proof.
  destruct x as [[]|[]| |[] m e]; simpl; try congruence; intros _;
    rewrite Z.compare_refl;
    change (Pos.compare_cont Eq m m) with (Pos.compare m m);
    rewrite Pos.compare_refl; reflexivity.
Qed.

Lemma isnan_Prim2SF (x : float) :
  Py.isnan x = true <-> Prim2SF x = S754_nan.
Proof.
  unfold Py.isnan, PrimFloat.is_nan. rewrite FloatAxioms.eqb_spec.
  unfold SFeqb. split.
  - intros H. destruct (Prim2SF x) eqn:E; try reflexivity;
      rewrite SFcompare_refl in H by discriminate; discriminate.
  - intros ->. reflexivity.
Qed.

Lemma SFcompare_None (x y : spec_float) :
  SFcompare x y = None -> x = S754_nan \/ y = S754_nan.
Proof.
  destruct x as [[]|[]| |[] mx ex], y as [[]|[]| |[] my ey]; simpl;
    try discriminate; auto.
Qed.

(** Against a value that is not NaN, a comparison that fails means the
    opposite comparison holds, unless the other value is NaN. *)
Lemma ltb_false_leb (x c : float) :
  Py.isnan x = false -> Py.isnan c = false ->
  (x <? c)%float = false -> (c <=? x)%float = true.
Proof.
  intros Hx Hc. rewrite FloatAxioms.ltb_spec, FloatAxioms.leb_spec.
  unfold SFltb, SFleb. rewrite (SFcompare_antisym (Prim2SF x) (Prim2SF c)).
  destruct (SFcompare (Prim2SF x) (Prim2SF c)) as [[]|] eqn:E; simpl;
    try reflexivity; try discriminate.
  apply SFcompare_None in E as [E|E]; apply isnan_Prim2SF in E; congruence.
Qed.

Lemma leb_false_ltb (x c : float) :
  Py.isnan x = false -> Py.isnan c = false ->
  (c <=? x)%float = false -> (x <? c)%float = true.
Proof.
  intros Hx Hc. rewrite FloatAxioms.ltb_spec, FloatAxioms.leb_spec.
  unfold SFltb, SFleb. rewrite (SFcompare_antisym (Prim2SF x) (Prim2SF c)).
  destruct (SFcompare (Prim2SF x) (Prim2SF c)) as [[]|] eqn:E; simpl;
    try reflexivity; try discriminate.
  apply SFcompare_None in E as [E|E]; apply isnan_Prim2SF in E; congruence.
Qed.

Lemma nan_comparisons (x c : float) :
  Py.isnan x = true ->
  (x <? c)%float = false /\ (c <? x)%float = false
  /\ (x <=? c)%float = false /\ (c <=? x)%float = false.
Proof.
  intros H. apply isnan_Prim2SF in H.
  rewrite !FloatAxioms.ltb_spec, !FloatAxioms.leb_spec.
  unfold SFltb, SFleb. rewrite H.
  destruct (Prim2SF c) as [[]|[]| |[] m e]; simpl; auto.
Qed.

(** X10. A classifier gives no label exactly when its metric is null or
    NaN; every other value, infinite ones included, gets a label. *)
Theorem classifier_null_iff_nan (x : float) :
  (Metrics._assess_valuation (Some x) = None <-> Py.isnan x = true)
  /\ (Metrics._assess_profitability (Some x) = None <-> Py.isnan x = true)
  /\ (Metrics._assess_liquidity (Some x) = None <-> Py.isnan x = true).
Proof.
  unfold Metrics._assess_valuation, Metrics._assess_profitability,
    Metrics._assess_liquidity.
  destruct (Py.isnan x) eqn:Hnan.
  - (split; [|split]); (split; [reflexivity|]); intros _;
      repeat match goal with
        | |- context [(?a <? ?b)%float] =>
            first [ replace (a <? b)%float with false
                      by (symmetry; apply (nan_comparisons x _ Hnan))
                  | fail 1 ]
        | |- context [(?a <=? ?b)%float] =>
            first [ replace (a <=? b)%float with false
                      by (symmetry; apply (nan_comparisons x _ Hnan))
                  | fail 1 ]
        end; reflexivity.
  - (split; [|split]); (split; [|discriminate]).
    + destruct (x <? 15)%float eqn:E1; [discriminate|].
      rewrite (ltb_false_leb x 15 Hnan eq_refl E1).
      destruct (x <=? 25)%float eqn:E2; [discriminate|]. simpl.
      rewrite (leb_false_ltb 25 x eq_refl Hnan E2). discriminate.
    + destruct (0x1.999999999999ap-3 <=? x)%float eqn:E1; [discriminate|].
      rewrite (leb_false_ltb x 0x1.999999999999ap-3 Hnan eq_refl E1).
      destruct (0x1.999999999999ap-4 <=? x)%float eqn:E2; [discriminate|].
      simpl. rewrite (leb_false_ltb x 0x1.999999999999ap-4 Hnan eq_refl E2).
      destruct (0 <=? x)%float eqn:E3; [discriminate|]. simpl.
      rewrite (leb_false_ltb x 0 Hnan eq_refl E3). discriminate.
    + destruct (2 <=? x)%float eqn:E1; [discriminate|].
      rewrite (leb_false_ltb x 2 Hnan eq_refl E1).
      destruct (1 <=? x)%float eqn:E2; [discriminate|]. simpl.
      rewrite (leb_false_ltb x 1 Hnan eq_refl E2). discriminate.
Qed.

Lemma classifier_null_iff_nan_witness :
  Metrics._assess_valuation (Some nan) = None
  /\ Py.isnan infinity = false.
Proof.
  split.
  - apply (classifier_null_iff_nan nan). reflexivity.
  - reflexivity.
Defined.

(** ** Key metrics handler *)

Lemma optional_float_of_float float_of_str (x : option float) :
  Pydantic.optional_float float_of_str (Pydantic.of_float x) = Ok x.
Proof. destruct x; reflexivity. Qed.

Lemma optional_str_of_str (s : option string) :
  Pydantic.optional_str (Pydantic.of_str s) = Ok s.
Proof. destruct s; reflexivity. Qed.

Lemma getattr_extra_Raise extras name e :
  FinnhubMetricData.getattr_extra extras name = Raise e ->
  e = AttributeError "FinnhubMetricData" name.
Proof.
  induction extras as [|[k v] rest IH]; simpl.
  - intros [= <-]. reflexivity.
  - destruct (String.eqb k name); [discriminate | exact IH].
Qed.

(** The handler once the metric bundle and the quick ratio are at hand:
    the constructor validates the symbol and the quick ratio, and nothing
    else can fail. *)
Lemma key_metrics_cases float_of_str symbol d m q :
  FinnhubBasicFinancials.metric d = Some m ->
  FinnhubMetricData.getattr_extra (FinnhubMetricData.extra m)
    "quickRatioQuarterly" = Ok q ->
  Metrics.key_metrics float_of_str symbol (Some d)
  = match FinnhubBasicFinancials.symbol d,
          Pydantic.optional_float float_of_str q with
    | Some s, Ok quick_ratio => Ok (key_metrics_out s m quick_ratio)
    | _, _ => Raise ValidationError
    end.
Proof.
  intros Hm Hq. unfold Metrics.key_metrics. rewrite Hm.
  unfold mbind at 1, Result_bind at 1. rewrite Hq.
  unfold KeyMetricsOut.init.
  cbn [Pydantic.kwarg String.eqb Ascii.eqb Bool.eqb].
  rewrite !optional_float_of_float, !optional_str_of_str.
  destruct (FinnhubBasicFinancials.symbol d) as [s|]; [|reflexivity].
  destruct q as [|x|s'|]; try reflexivity.
  simpl. destruct (float_of_str s'); reflexivity.
Qed.

Lemma getattr_extra_kwarg (extras : list (string * PyVal)) (name : string) :
  if List.existsb (fun kv => String.eqb (fst kv) name) extras
  then FinnhubMetricData.getattr_extra extras name
       = Ok (Pydantic.kwarg extras name)
  else FinnhubMetricData.getattr_extra extras name
       = Raise (AttributeError "FinnhubMetricData" name).
Proof.
  induction extras as [|[k v] rest IH]; [reflexivity|].
  cbn [List.existsb FinnhubMetricData.getattr_extra Pydantic.kwarg fst].
  destruct (String.eqb k name); [reflexivity | exact IH].
Qed.

(** The outcome of the handler on a metric bundle, by what the bundle
    holds under quickRatioQuarterly and by the provider's symbol. *)
Lemma key_metrics_on_bundle float_of_str symbol d m :
  FinnhubBasicFinancials.metric d = Some m ->
  Metrics.key_metrics float_of_str symbol (Some d)
  = if List.existsb (fun kv => String.eqb (fst kv) "quickRatioQuarterly")
         (FinnhubMetricData.extra m)
    then match FinnhubBasicFinancials.symbol d,
               Pydantic.optional_float float_of_str
                 (Pydantic.kwarg (FinnhubMetricData.extra m)
                    "quickRatioQuarterly") with
         | Some s, Ok quick_ratio => Ok (key_metrics_out s m quick_ratio)
         | _, _ => Raise ValidationError
         end
    else Raise (AttributeError "FinnhubMetricData" "quickRatioQuarterly").
Proof.
  intros Hm.
  pose proof (getattr_extra_kwarg (FinnhubMetricData.extra m)
                "quickRatioQuarterly") as Hextra.
  destruct (List.existsb _ _).
  - exact (key_metrics_cases float_of_str symbol d m _ Hm Hextra).
  - unfold Metrics.key_metrics. rewrite Hm.
    unfold mbind at 1, Result_bind at 1. rewrite Hextra. reflexivity.
Qed.

(** X11. The key-metrics handler answers 404 when the provider gave
    nothing or no metric bundle; it fails with AttributeError when the
    bundle lacks the undeclared field quickRatioQuarterly; when that field
    is a number or null, it fails validation if the provider's symbol is
    missing and otherwise returns the output whose fields are those of the
    bundle, the quick ratio being the quarterly one, with the three labels
    computed from the P/E ratio, the net margin and the current ratio. *)
Theorem key_metrics_outcome (float_of_str : string -> option float)
    (symbol : string) (d : FinnhubBasicFinancials.t) :
  Metrics.key_metrics float_of_str symbol None
  = Raise (HTTPException 404 (no_metrics_detail symbol))
  /\ (FinnhubBasicFinancials.metric d = None ->
      Metrics.key_metrics float_of_str symbol (Some d)
      = Raise (HTTPException 404 (no_metrics_detail symbol)))
  /\ (forall m,
        FinnhubBasicFinancials.metric d = Some m ->
        Forall (fun kv => fst kv <> "quickRatioQuarterly")
          (FinnhubMetricData.extra m) ->
        Metrics.key_metrics float_of_str symbol (Some d)
        = Raise (AttributeError "FinnhubMetricData" "quickRatioQuarterly"))
  /\ (forall m quick_ratio,
        FinnhubBasicFinancials.metric d = Some m ->
        FinnhubMetricData.getattr_extra (FinnhubMetricData.extra m)
          "quickRatioQuarterly" = Ok (Pydantic.of_float quick_ratio) ->
        Metrics.key_metrics float_of_str symbol (Some d)
        = match FinnhubBasicFinancials.symbol d with
          | Some s => Ok (key_metrics_out s m quick_ratio)
          | None => Raise ValidationError
          end).
Proof.
  repeat apply conj.
  - reflexivity.
  - intros Hm. unfold Metrics.key_metrics. rewrite Hm. reflexivity.
  - intros m Hm Hall.
    rewrite (key_metrics_on_bundle float_of_str symbol d m Hm).
    replace (List.existsb _ (FinnhubMetricData.extra m)) with false;
      [reflexivity|].
    symmetry. induction Hall as [|[k v] rest Hk _ IH]; [reflexivity|].
    simpl in *. apply String.eqb_neq in Hk. rewrite Hk. exact IH.
  - intros m quick_ratio Hm Hq.
    rewrite (key_metrics_cases float_of_str symbol d m _ Hm Hq).
    rewrite optional_float_of_float.
    destruct (FinnhubBasicFinancials.symbol d); reflexivity.
Qed.

Lemma key_metrics_outcome_witness :
  Metrics.key_metrics Sample.float_of_str "ACME"
    (Some Sample.basic_financials)
  = Ok (key_metrics_out "ACME" Sample.metric_data (Some 1.25%float))
  /\ Metrics.key_metrics Sample.float_of_str "ACME"
       (Some (FinnhubBasicFinancials.mk
                (Some (FinnhubMetricData.mk None None None None None None
                         None None None None (Some 1.5%float) None None None
                         None None None None None None None []))
                "all" (Some "ACME")))
     = Raise (AttributeError "FinnhubMetricData" "quickRatioQuarterly").
Proof.
  split.
  - destruct (key_metrics_outcome Sample.float_of_str "ACME"
                Sample.basic_financials)
      as (_ & _ & _ & H).
    apply (H Sample.metric_data (Some 1.25%float)); reflexivity.
  - match goal with
    | |- Metrics.key_metrics _ _ (Some ?d) = _ =>
        destruct (key_metrics_outcome Sample.float_of_str "ACME" d)
          as (_ & _ & H & _)
    end.
    eapply H; [reflexivity | constructor].
Defined.

(** X12. The 52-week high and low of the key-metrics output are always
    null: the output schema declares the two fields under the aliases
    52_week_high and 52_week_low, the handler passes them under their field
    names, and the constructor drops arguments that name no field.  This
    holds of every output the endpoint returns, whatever the payload holds
    under quickRatioQuarterly and however the constructor reads numeric
    strings. *)
Theorem key_metrics_week_range_null (float_of_str : string -> option float)
    (symbol api_key : string) (w w' : World) (out : KeyMetricsOut.t) :
  Endpoints.get_company_metrics_endpoint float_of_str symbol api_key w
  = (Ok out, w') ->
  KeyMetricsOut.fifty_two_week_high out = None
  /\ KeyMetricsOut.fifty_two_week_low out = None.
Proof.
  unfold Endpoints.get_company_metrics_endpoint, mbind, M_bind, lift, raise.
  destruct (Services.get_basic_financials symbol api_key "all" w)
    as [[finnhub_data|e] w1]; [|discriminate].
  destruct finnhub_data as [[p|b|r]|]; intros E; try discriminate E.
  assert (H : Metrics.key_metrics float_of_str symbol (Some b) = Ok out)
    by congruence.
  clear E.
  destruct (FinnhubBasicFinancials.metric b) as [m|] eqn:Hm.
  2:{ unfold Metrics.key_metrics in H. rewrite Hm in H. discriminate. }
  rewrite (key_metrics_on_bundle float_of_str symbol b m Hm) in H.
  destruct (List.existsb _ _); [|discriminate].
  destruct (FinnhubBasicFinancials.symbol b); [|discriminate].
  destruct (Pydantic.optional_float _ _); [|discriminate].
  injection H as <-. split; reflexivity.
Qed.

Lemma key_metrics_week_range_null_witness :
  FinnhubMetricData.fifty_two_week_high Sample.quoted_metric_data
  = Some 180%float
  /\ FinnhubMetricData.fifty_two_week_low Sample.quoted_metric_data
     = Some 120%float
  /\ FinnhubMetricData.extra Sample.quoted_metric_data
     = [("quickRatioQuarterly", VStr "1.5")]
  /\ exists out w',
       Endpoints.get_company_metrics_endpoint Sample.float_of_str
         "ACME" "token"
         (Sample.metrics_world Sample.quoted_basic_financials)
       = (Ok out, w')
       /\ KeyMetricsOut.quick_ratio_annual out = Some 1.5%float
       /\ KeyMetricsOut.fifty_two_week_high out = None
       /\ KeyMetricsOut.fifty_two_week_low out = None.
Proof.
  split; [reflexivity|]. split; [reflexivity|]. split; [reflexivity|].
  eexists _, _. split; [reflexivity|]. split; [reflexivity|].
  eapply (key_metrics_week_range_null Sample.float_of_str "ACME" "token"
            (Sample.metrics_world Sample.quoted_basic_financials)).
  reflexivity.
Defined.

(** ** Service calls and the cache *)

(** X13. Without a live cache entry, a failed fetch is reported as it
    happened and no older value stands in for it: a network failure raises
    RequestError, a body that does not validate raises the validation
    error, a 400 whose body mentions "Invalid symbol" yields null, and any
    other non-success status raises HTTPStatusError with that status and
    body, even when a stale entry is still in the cache. *)
Theorem fetch_failure_outcome (f : Fetch) (w : World) :
  (forall entry,
     _finnhub_cache w !! key_of f = Some entry -> ~ live w entry) ->
  fetched w f = None ->
  exists w',
    run f w
    = (match upstream w (url_of f) with
       | NoReply => Raise RequestError
       | Response status_code text =>
           if Services.is_success status_code then Raise ValidationError
           else if (status_code =? 400) && Py.str_in "Invalid symbol" text
           then Ok None
           else Raise (HTTPStatusError status_code text)
       end, w')
    /\ _finnhub_cache w' = _finnhub_cache w.
Proof.
  intros Hstale Hfetched. rewrite run_cached_fetch.
  unfold fetched in Hfetched. unfold live in Hstale. run_monad.
  unfold Services.timedelta, Services.CACHE_EXPIRATION_SECONDS.
  assert (Hfresh :
    match _finnhub_cache w !! key_of f with
    | Some entry =>
        (clock w (ticks w) - CacheEntry.timestamp entry <? 300 * 1000000)
        = false
    | None => True
    end).
  { destruct (_finnhub_cache w !! key_of f) as [entry|]; [|exact I].
    destruct (Z.ltb_spec (clock w (ticks w) - CacheEntry.timestamp entry)
                (300 * 1000000)) as [Hlt|_]; [|reflexivity].
    exfalso. exact (Hstale entry eq_refl Hlt). }
  destruct (_finnhub_cache w !! key_of f) as [entry|]; simpl;
    rewrite ?Hfresh; simpl;
    (destruct (upstream w (url_of f)) as [|status_code text]; simpl;
     [eexists; split; reflexivity|]);
    (destruct (Services.is_success status_code); simpl;
     [rewrite Hfetched; eexists; split; reflexivity|]);
    destruct ((status_code =? 400) && Py.str_in "Invalid symbol" text);
    eexists; split; reflexivity.
Qed.

Lemma fetch_failure_outcome_witness :
  let f := Profile "ACME" "token" in
  let rate_limited (_ : string) := Response 429 "API limit reached" in
  exists w',
    run f (Sample.world 300 rate_limited)
    = (Raise (HTTPStatusError 429 "API limit reached"), w')
    /\ _finnhub_cache w' !! key_of f
       = Some (CacheEntry.mk (ProfileModel Sample.profile) 0).
Proof.
  intros f rate_limited.
  destruct (fetch_failure_outcome f (Sample.world 300 rate_limited))
    as (w' & Hrun & Hcache).
  - intros entry H. vm_compute in H. injection H as <-.
    unfold live. simpl. lia.
  - reflexivity.
  - exists w'. split; [exact Hrun|]. rewrite Hcache. reflexivity.
Defined.

(** X14. What a successful fetch stores is what the next call returns: the
    payload is kept under the request's key, and a second call made while
    the entry is younger than 300 seconds returns the same payload without
    asking the provider again and without touching the cache. *)
Theorem fetch_then_hit (f : Fetch) (w : World) (data : Model) :
  (forall entry,
     _finnhub_cache w !! key_of f = Some entry -> ~ live w entry) ->
  fetched w f = Some data ->
  exists w1 stored_at,
    run f w = (Ok (Some data), w1)
    /\ _finnhub_cache w1 !! key_of f = Some (CacheEntry.mk data stored_at)
    /\ (clock w1 (ticks w1) - stored_at < 300 * 1000000 ->
        exists w2,
          run f w1 = (Ok (Some data), w2)
          /\ requests w2 = requests w1
          /\ _finnhub_cache w2 = _finnhub_cache w1).
Proof.
  intros Hstale Hfetched.
  destruct (cached_fetch_miss (key_of f) (url_of f) (model_of f) w Hstale)
    as (result & w1 & Hrun & _ & Hcases).
  unfold fetched in Hfetched.
  destruct (upstream w (url_of f)) as [|status_code text]; [discriminate|].
  destruct (Services.is_success status_code); [|discriminate].
  rewrite Hfetched in Hcases.
  destruct Hcases as (-> & n & _ & _ & Hcache).
  rewrite <- run_cached_fetch in Hrun.
  exists w1, (clock w n). split; [exact Hrun|].
  assert (Hentry : _finnhub_cache w1 !! key_of f
                   = Some (CacheEntry.mk data (clock w n)))
    by (rewrite Hcache; apply lookup_insert_eq).
  split; [exact Hentry|]. intros Hyoung.
  rewrite run_cached_fetch.
  exact (cached_fetch_hit _ _ _ w1 _ Hentry Hyoung).
Qed.

Lemma fetch_then_hit_witness :
  let f := Profile "ACME" "token" in
  exists w1 w2,
    run f (Sample.world 300 Sample.answers)
    = (Ok (Some (ProfileModel Sample.refreshed)), w1)
    /\ run f w1 = (Ok (Some (ProfileModel Sample.refreshed)), w2)
    /\ requests w2 = [url_of f].
Proof.
  intros f.
  destruct (fetch_then_hit f (Sample.world 300 Sample.answers)
              (ProfileModel Sample.refreshed))
    as (w1 & stored_at & Hrun & Hentry & Hagain).
  - intros entry H. vm_compute in H. injection H as <-.
    unfold live. simpl. lia.
  - reflexivity.
  - assert (E : w1 = snd (run f (Sample.world 300 Sample.answers)))
      by (rewrite Hrun; reflexivity).
    destruct Hagain as (w2 & Hrun2 & Hreq & _).
    { rewrite E in Hentry. vm_compute in Hentry. injection Hentry as <-.
      rewrite E. vm_compute. reflexivity. }
    exists w1, w2. repeat apply conj; [exact Hrun | exact Hrun2 |].
    rewrite Hreq, E. reflexivity.
Defined.

(** X15. A service call leaves the rest of the world alone: entries under
    other keys are unchanged, no entry is ever removed, at most one request
    is made and it goes to the call's own URL, the clock is read at most
    twice, and the provider and the decoder are not altered. *)
Theorem service_call_frame (f : Fetch) (w w' : World)
    (result : Result (option Model)) :
  run f w = (result, w') ->
  (forall key, key <> key_of f ->
               _finnhub_cache w' !! key = _finnhub_cache w !! key)
  /\ (forall key, is_Some (_finnhub_cache w !! key) ->
                  is_Some (_finnhub_cache w' !! key))
  /\ (requests w' = requests w \/ requests w' = url_of f :: requests w)
  /\ (ticks w <= ticks w' <= ticks w + 2)%nat
  /\ clock w' = clock w /\ upstream w' = upstream w /\ decode w' = decode w.
Proof.
  rewrite run_cached_fetch. run_monad.
  destruct (_finnhub_cache w !! key_of f) as [entry|] eqn:Hentry; simpl;
    repeat match goal with
      | |- context [if ?b then _ else _] => destruct b eqn:?; simpl
      | |- context [match upstream w ?u with _ => _ end] =>
          destruct (upstream w u) as [|status_code text] eqn:?; simpl
      | |- context [match decode w ?c ?t with _ => _ end] =>
          destruct (decode w c t) as [data|] eqn:?; simpl
      end;
    intros [= <- <-]; simpl;
    (repeat apply conj;
     [ intros key Hkey; rewrite ?lookup_insert_ne by congruence; reflexivity
     | intros key Hsome;
       try (destruct (decide (key_of f = key)) as [<-|Hne];
            [rewrite lookup_insert_eq; eauto
            |rewrite lookup_insert_ne by exact Hne]);
       exact Hsome
     | auto | lia | lia | reflexivity | reflexivity | reflexivity ]).
Qed.

Lemma service_call_frame_witness :
  let f := Profile "OTHER" "token" in
  exists result w',
    run f (Sample.world 300 Sample.answers) = (result, w')
    /\ _finnhub_cache w' !! "company_profile_ACME"
       = Some (CacheEntry.mk (ProfileModel Sample.profile) 0).
Proof.
  intros f. eexists _, _. split; [reflexivity|].
  edestruct (service_call_frame f (Sample.world 300 Sample.answers))
    as (Hother & _); [reflexivity|].
  rewrite Hother by discriminate. reflexivity.
Defined.

(** ** Errors of the endpoints *)





(** ** Configuration *)

Lemma truthy_outcome (environ : gmap string string) :
  if Config.truthy (Config.finnhub_api_key environ)
  then api_key_outcome environ
       = Config.Returned (Config.finnhub_api_key environ)
  else api_key_outcome environ
       = Config.ValueError "FINNHUB_API_KEY environment variable not set.".
Proof.
  unfold api_key_outcome, Config.finnhub_api_key.
  destruct (environ !! "FINNHUB_API_KEY") as [[|c key]|]; reflexivity.
Qed.

Lemma get_api_key_invariant (environ : gmap string string)
    (cached : option Config.Settings) :
  (cached = None
   \/ (cached = Some (Config.mkSettings (Config.finnhub_api_key environ))
       /\ Config.truthy (Config.finnhub_api_key environ) = true)) ->
  exists cached',
    Config.get_api_key environ cached = (api_key_outcome environ, cached')
    /\ (cached' = None
        \/ (cached'
            = Some (Config.mkSettings (Config.finnhub_api_key environ))
            /\ Config.truthy (Config.finnhub_api_key environ) = true)).
Proof.
  pose proof (truthy_outcome environ) as Hout.
  unfold Config.get_api_key, Config.get_settings, Config.Settings_init.
  intros [-> | [-> Htruthy]].
  - destruct (Config.truthy (Config.finnhub_api_key environ)) eqn:E; simpl.
    + rewrite E. simpl. rewrite Hout. eexists. split; [reflexivity|]. auto.
    + rewrite Hout. eexists. split; [reflexivity|]. auto.
  - simpl. rewrite Htruthy in *. simpl. rewrite Hout.
    eexists. split; [reflexivity|]. auto.
Qed.

(** X17. Starting from an empty settings cache, every call of
    [get_api_key] has the same outcome: the value of FINNHUB_API_KEY when
    the variable is set and not empty, and otherwise the ValueError of the
    settings constructor.  An empty key is never returned, and the error
    "Finnhub API Key is not configured." is never raised. *)
Theorem get_api_key_calls (environ : gmap string string) (n : nat) :
  fst (Config.calls environ n None) = repeat (api_key_outcome environ) n
  /\ api_key_outcome environ <> Config.Returned ""
  /\ api_key_outcome environ
     <> Config.ValueError "Finnhub API Key is not configured.".
Proof.
  repeat apply conj.
  - assert (H : forall cached,
              (cached = None
               \/ (cached
                   = Some (Config.mkSettings
                             (Config.finnhub_api_key environ))
                   /\ Config.truthy (Config.finnhub_api_key environ)
                      = true)) ->
              fst (Config.calls environ n cached)
              = repeat (api_key_outcome environ) n).
    { induction n as [|n IH]; intros cached Hinv; [reflexivity|].
      simpl.
      destruct (get_api_key_invariant environ cached Hinv)
        as (cached' & -> & Hinv').
      specialize (IH cached' Hinv').
      destruct (Config.calls environ n cached') as [later final].
      simpl in *. rewrite IH. reflexivity. }
    apply H. auto.
  - unfold api_key_outcome.
    destruct (environ !! "FINNHUB_API_KEY") as [[|c key]|]; discriminate.
  - unfold api_key_outcome.
    destruct (environ !! "FINNHUB_API_KEY") as [[|c key]|]; discriminate.
Qed.

Example get_api_key_samples :
  fst (Config.calls {[ "FINNHUB_API_KEY" := "secret" ]} 3 None)
  = [Config.Returned "secret"; Config.Returned "secret";
     Config.Returned "secret"]
  /\ fst (Config.calls {[ "FINNHUB_API_KEY" := "" ]} 2 None)
     = [Config.ValueError "FINNHUB_API_KEY environment variable not set.";
        Config.ValueError "FINNHUB_API_KEY environment variable not set."]
  /\ fst (Config.calls ∅ 1 None)
     = [Config.ValueError "FINNHUB_API_KEY environment variable not set."].
Proof. repeat apply conj; vm_compute; reflexivity. Qed.
